(** * Daily price statistics (bitcoin-new.py)

    A shallow embedding of the streaming statistics engine of
    [bitcoin-new.py]: the accumulator [DailyPriceStats] with its
    generator [act], and its two subclasses [Schema1] (trend) and
    [Schema2] (dispersion).  Fetching, random test data and the request
    handlers around [act] are not part of it: [act] is given its samples
    as a list.

    Modelling choices.
    - A Python attribute that may hold [None] is an [option].
    - A Python [float] price is an exact rational ([Q]): no rounding,
      no overflow, no NaN.  The [statistics] module computes means and
      variances over exact fractions as well; the square root in [stdev]
      is kept symbolic and compared on the squares.  The properties are
      therefore stated so that they do not depend on the digits of a
      computed number: they speak of the order and the equality of prices
      (the sign of a float difference is the sign of the exact one, and
      the difference is zero only for equal prices), of the samples a
      statistic is computed from, and of a mean or a variance through what
      rounding keeps: its bounds, and its value where that is a float
      itself.  [statistics.variance] raises [OverflowError] on floats
      whose squared deviations leave the float range, which exact
      fractions never do: that a Dispersion run returns is stated for
      prices between 0 and 10^150 ([prices_in_range]).
    - Timestamps are kept to the second: the code reads the day number of
      a timestamp and formats it to seconds, never its microseconds.
    - A method that may raise returns a [result].  The methods of
      [Schema2] and the properties of [Schema1] that assign to [self]
      return the object along with their value, so that what they leave
      unchanged is there to be proved.
    - The generator [act] is the list of records it yields together with
      the way it ends: normally, with the final object, or by raising.
    - A subclass is an instance of the class [Hooks] of the three methods
      it overrides, over the dataclass fields it adds. *)

From Stdlib Require Import ZArith QArith Qabs List Bool Lia String Ascii.
From Stdlib Require Import DecimalString Sorting.Sorted.
From Stdlib Require Import Reals Qreals Lra Psatz.
Import ListNotations.

Local Open Scope Z_scope.

(** ** Exceptions and results *)

Inductive exn : Type :=
| AttributeError   (* attribute access on None *)
| TypeError        (* arithmetic, comparison or formatting of None *)
| StatisticsError  (* too few data points *)
| IndexError       (* index out of range *)
| OverflowError.   (* a float result out of range: raised by the floats of
                      the source only, the fractions here are exact *)

Inductive result (A : Type) : Type :=
| Ok (a : A)
| Raise (e : exn).

Arguments Ok {A} a.
Arguments Raise {A} e.

Definition bind {A B : Type} (c : result A) (k : A -> result B) : result B :=
  match c with
  | Ok a => k a
  | Raise e => Raise e
  end.

Declare Scope result_scope.
Delimit Scope result_scope with result.
Notation "x <- c ;; k" := (bind c (fun x => k))
  (at level 61, c at next level, right associativity) : result_scope.
Notation "' pat <- c ;; k" := (bind c (fun x => match x with pat => k end))
  (at level 61, pat pattern, c at next level, right associativity) : result_scope.

(** ** datetime.datetime *)

Record datetime : Type := mkDatetime {
  year : Z; month : Z; day : Z;
  hour : Z; minute : Z; second : Z
}.

(** The calendar date of a timestamp, as [datetime.date()] gives it. *)
Definition date_of (d : datetime) : Z * Z * Z := (year d, month d, day d).

(** Chronological order of timestamps (lexicographic on the fields). *)
Definition dt_le (a b : datetime) : Prop :=
  year a < year b \/ (year a = year b /\
  (month a < month b \/ (month a = month b /\
  (day a < day b \/ (day a = day b /\
  (hour a < hour b \/ (hour a = hour b /\
  (minute a < minute b \/ (minute a = minute b /\
   second a <= second b))))))))).

(** CPython's proleptic Gregorian ordinal ([_ymd2ord]) and [weekday()]. *)
Definition is_leap (y : Z) : bool :=
  (y mod 4 =? 0) && (negb (y mod 100 =? 0) || (y mod 400 =? 0)).

Definition days_before_year (y : Z) : Z :=
  let y1 := y - 1 in y1 * 365 + y1 / 4 - y1 / 100 + y1 / 400.

Definition days_before_month (y m : Z) : Z :=
  nth (Z.to_nat m) [-1; 0; 31; 59; 90; 120; 151; 181; 212; 243; 273; 304; 334] 0
  + (if (2 <? m) && is_leap y then 1 else 0).

Definition toordinal (d : datetime) : Z :=
  days_before_year (year d) + days_before_month (year d) (month d) + day d.

Definition weekday (d : datetime) : Z := (toordinal d + 6) mod 7.

Local Open Scope string_scope.

Definition decimal (n : Z) : string := NilZero.string_of_uint (N.to_uint (Z.to_N n)).

(** [%02d]-style zero padding to a minimal width. *)
Fixpoint zeros (n : nat) : string :=
  match n with O => EmptyString | S n' => "0" ++ zeros n' end.

Definition pad (width : nat) (n : Z) : string :=
  let s := decimal n in zeros (width - String.length s) ++ s.

(** [strftime("%A")] in the C locale. *)
Definition strftime_A (d : datetime) : string :=
  nth (Z.to_nat (weekday d))
    ["Monday"; "Tuesday"; "Wednesday"; "Thursday"; "Friday"; "Saturday"; "Sunday"]
    EmptyString.

(** [strftime("%Y-%m-%dT%H:%M:%S")]. *)
Definition strftime_iso (d : datetime) : string :=
  pad 4 (year d) ++ "-" ++ pad 2 (month d) ++ "-" ++ pad 2 (day d) ++ "T" ++
  pad 2 (hour d) ++ ":" ++ pad 2 (minute d) ++ ":" ++ pad 2 (second d).

(** ** Floats as rationals *)

Definition Qltb (x y : Q) : bool := negb (Qle_bool y x).

(** Truth value of a float: [0.0] is falsy. *)
Definition truthy (x : Q) : bool := negb (Qeq_bool x 0).

(** Nearest integer of a non-negative rational, ties to even. *)
Definition round_half_even (q : Q) : Z :=
  let n := Qnum q in
  let d := Zpos (Qden q) in
  let fl := (n / d)%Z in
  let r2 := (2 * (n mod d))%Z in
  if (r2 <? d)%Z then fl
  else if (d <? r2)%Z then (fl + 1)%Z
  else if Z.even fl then fl else (fl + 1)%Z.

(** The format specification [0.2f]: fixed point, two decimals. *)
Definition format_2f (q : Q) : string :=
  let c := round_half_even (Qabs q * 100) in
  (if (Qnum q <? 0)%Z then "-" else EmptyString) ++
  decimal (c / 100) ++ "." ++ pad 2 (c mod 100).

Local Close Scope string_scope.
Local Open Scope list_scope.

(** ** Prices, samples and the accumulator *)

Definition PriceDateEntry : Type := datetime * Q.

(** The dataclass [DailyPriceStats]; [fields] holds the dataclass fields a
    subclass adds. *)
Record DailyPriceStats (X : Type) : Type := mkStats {
  curr_val : option Q;
  curr_date : option datetime;
  prev_val : option Q;
  prev_date : option datetime;
  prev_day_val : option Q;
  fields : X
}.

Arguments mkStats {X}.
Arguments curr_val {X}.
Arguments curr_date {X}.
Arguments prev_val {X}.
Arguments prev_date {X}.
Arguments prev_day_val {X}.
Arguments fields {X}.

(** A freshly constructed object: every base field is [None]. *)
Definition fresh {X : Type} (x : X) : DailyPriceStats X :=
  mkStats None None None None None x.

Definition set_curr {X} (self : DailyPriceStats X) (line : PriceDateEntry) :=
  mkStats (Some (snd line)) (Some (fst line))
          (prev_val self) (prev_date self) (prev_day_val self) (fields self).

Definition set_prev_day_val {X} (self : DailyPriceStats X) (v : option Q) :=
  mkStats (curr_val self) (curr_date self)
          (prev_val self) (prev_date self) v (fields self).

Definition set_prev {X} (self : DailyPriceStats X)
    (d : option datetime) (v : option Q) :=
  mkStats (curr_val self) (curr_date self) v d (prev_day_val self) (fields self).

Definition set_fields {X} (self : DailyPriceStats X) (x : X) :=
  mkStats (curr_val self) (curr_date self)
          (prev_val self) (prev_date self) (prev_day_val self) x.

(** The methods a subclass overrides.  [output_format] may raise and may
    assign to [self]; the two update hooks only assign. *)
Class Hooks (X R : Type) : Type := {
  output_format : DailyPriceStats X -> result (R * DailyPriceStats X);
  hourly_update : DailyPriceStats X -> DailyPriceStats X;
  post_daily_update : DailyPriceStats X -> DailyPriceStats X
}.

Local Open Scope result_scope.

(** [DailyPriceStats.new_day]: [or] does not look at [curr_date] when
    [prev_date] is [None]. *)
Definition new_day {X} (self : DailyPriceStats X) : result bool :=
  match prev_date self with
  | None => Ok true
  | Some pd =>
      match curr_date self with
      | None => Raise AttributeError
      | Some cd => Ok (negb (day pd =? day cd)%Z)
      end
  end.

Section Act.
Context {X R : Type} `{Hooks X R}.

(** One iteration of the [for] loop of [act]: the records it yields and
    the object at the end of the iteration. *)
Definition act_body (self : DailyPriceStats X) (line : PriceDateEntry)
  : result (list R * DailyPriceStats X) :=
  let self := set_curr self line in
  nd <- new_day self ;;
  '(out, self) <-
    (if nd : bool then
       '(r, self) <- output_format self ;;
       let self := post_daily_update self in
       Ok ([r], set_prev_day_val self (curr_val self))
     else Ok ([], self)) ;;
  let self := hourly_update self in
  Ok (out, set_prev self (curr_date self) (curr_val self)).

(** The [for] loop: what has been yielded, and how the loop ended. *)
Fixpoint act_loop (self : DailyPriceStats X) (data : list PriceDateEntry)
  : list R * result (DailyPriceStats X) :=
  match data with
  | [] => ([], Ok self)
  | line :: rest =>
      match act_body self line with
      | Raise e => ([], Raise e)
      | Ok (out, self') =>
          let (ys, res) := act_loop self' rest in (out ++ ys, res)
      end
  end.

(** [DailyPriceStats.act], run to exhaustion. *)
Definition act (self : DailyPriceStats X) (data : list PriceDateEntry)
  : list R * result (DailyPriceStats X) :=
  match act_loop self data with
  | (ys, Raise e) => (ys, Raise e)
  | (ys, Ok self) =>
      let self := hourly_update self in
      match output_format self with
      | Raise e => (ys, Raise e)
      | Ok (r, self) => (ys ++ [r], Ok self)
      end
  end.
End Act.

(** ** Output records

    A record is a Python [dict] with string keys; it is kept as the list of
    its items in insertion order, which is also the order [json.dumps]
    writes them in. *)

Inductive value : Type :=
| VNone
| VBool (b : bool)
| VStr (s : string)
| VNum (q : Q).

Definition record : Type := list (string * value).

Fixpoint get (key : string) (r : record) : option value :=
  match r with
  | [] => None
  | (k, v) :: r' => if String.eqb key k then Some v else get key r'
  end.

Arguments get key%_string r.

Definition opt {A : Type} (f : A -> value) (o : option A) : value :=
  match o with
  | None => VNone
  | Some a => f a
  end.

(** Attribute access and formatting on a possibly-[None] attribute. *)
Definition attr {A B : Type} (o : option A) (f : A -> B) : result B :=
  match o with
  | None => Raise AttributeError
  | Some a => Ok (f a)
  end.

Definition format_spec (o : option Q) : result string :=
  match o with
  | None => Raise TypeError
  | Some v => Ok (format_2f v)
  end.

(** ** Schema1: the trend strategy *)

Module Schema1.

Record extra : Type := mkExtra {
  _min_val : option Q;
  _max_val : option Q
}.

Definition t : Type := DailyPriceStats extra.

(** [Schema1()] *)
Definition init : t := fresh (mkExtra None None).

Definition set_min (self : t) (v : option Q) : t :=
  set_fields self (mkExtra v (_max_val (fields self))).

Definition set_max (self : t) (v : option Q) : t :=
  set_fields self (mkExtra (_min_val (fields self)) v).

Definition day_of_week (self : t) : result string :=
  attr (curr_date self) strftime_A.

Definition change (self : t) : result (option Q) :=
  match prev_day_val self with
  | None => Ok None
  | Some sod =>
      match curr_val self with
      | None => Raise TypeError
      | Some v => Ok (Some (v - sod)%Q)
      end
  end.

Definition direction (self : t) : result (option string) :=
  c <- change self ;;
  Ok match c with
     | None => None
     | Some c =>
         Some (if Qltb 0 c then "up" else if Qltb c 0 then "down" else "same")%string
     end.

(** Reading this property assigns to [_max_val]. *)
Definition high_since_start (self : t) : result (option bool * t) :=
  match _max_val (fields self) with
  | None => Ok (None, set_max self (curr_val self))
  | Some m =>
      match curr_val self with
      | None => Raise TypeError
      | Some v =>
          if Qltb m v then Ok (Some true, set_max self (Some v))
          else Ok (Some false, self)
      end
  end.

(** Reading this property assigns to [_min_val]. *)
Definition low_since_start (self : t) : result (option bool * t) :=
  match _min_val (fields self) with
  | None => Ok (None, set_min self (curr_val self))
  | Some m =>
      match curr_val self with
      | None => Raise TypeError
      | Some v =>
          if Qltb v m then Ok (Some true, set_min self (Some v))
          else Ok (Some false, self)
      end
  end.

(** The value under ["change"]: [f"{self.change:0.2f}" if self.change else None]. *)
Definition change_item (c : option Q) : value :=
  match c with
  | None => VNone
  | Some c => if truthy c then VStr (format_2f c) else VNone
  end.

(** The items of the dict display are evaluated top to bottom. *)
Definition output_format (self : t) : result (record * t) :=
  date <- attr (curr_date self) strftime_iso ;;
  price <- format_spec (curr_val self) ;;
  dir <- direction self ;;
  c <- change self ;;
  dow <- day_of_week self ;;
  '(hi, self) <- high_since_start self ;;
  '(lo, self) <- low_since_start self ;;
  Ok ([("date", VStr date);
       ("price", VStr price);
       ("direction", opt VStr dir);
       ("change", change_item c);
       ("dayOfWeek", VStr dow);
       ("highSinceStart", opt VBool hi);
       ("lowSinceStart", opt VBool lo)]%string, self).

#[global] Instance hooks : Hooks extra record := {
  output_format := output_format;
  hourly_update := fun self => self;
  post_daily_update := fun self => self
}.

End Schema1.

(** ** The [statistics] module, over exact fractions *)

(** The data as numbers; arithmetic on [None] raises [TypeError]. *)
Fixpoint floats (data : list (option Q)) : result (list Q) :=
  match data with
  | [] => Ok []
  | None :: _ => Raise TypeError
  | Some x :: rest => xs <- floats rest ;; Ok (x :: xs)
  end.

Definition Qsum (xs : list Q) : Q := fold_right Qplus 0%Q xs.

Definition Qlen (xs : list Q) : Q := inject_Z (Z.of_nat (List.length xs)).

Definition Qmean (xs : list Q) : Q := (Qsum xs / Qlen xs)%Q.

(** Sum of squared deviations from the mean, over [n - 1]. *)
Definition Qvariance (xs : list Q) : Q :=
  let c := Qmean xs in
  (Qsum (map (fun x => (x - c) * (x - c)) xs) / (Qlen xs - 1))%Q.

(** [statistics.mean] *)
Definition mean (data : list (option Q)) : result Q :=
  if (List.length data <? 1)%nat then Raise StatisticsError
  else xs <- floats data ;; Ok (Qmean xs).

(** [statistics.variance] *)
Definition variance (data : list (option Q)) : result Q :=
  if (List.length data <? 2)%nat then Raise StatisticsError
  else xs <- floats data ;; Ok (Qvariance xs).

(** A non-negative square root, kept as its radicand: [Sqrt v] is the
    real number whose square is [v]. *)
Record root : Type := Sqrt { radicand : Q }.

(** [statistics.stdev]: the square root of the sample variance. *)
Definition stdev (data : list (option Q)) : result root :=
  v <- variance data ;; Ok (Sqrt v).

(** The chained comparison [-1*std_dev*2 < d < std_dev*2], decided on the
    squares. *)
Definition within_two (std_dev : root) (d : Q) : bool :=
  Qltb (d * d) (4 * radicand std_dev).

(** The same comparison as the source writes it, over the reals. *)
Definition within_two_R (std_dev : root) (d : Q) : Prop :=
  let s := sqrt (Q2R (radicand std_dev)) in
  (-1 * s * 2 < Q2R d < s * 2)%R.

(** [xs[-1]] *)
Definition last_item {A : Type} (xs : list A) : result A :=
  match rev xs with
  | [] => Raise IndexError
  | x :: _ => Ok x
  end.

(** ** Schema2: the dispersion strategy *)

Module Schema2.

Record extra : Type := mkExtra {
  vals : list (option Q)
}.

Definition t : Type := DailyPriceStats extra.

(** [Schema2()] *)
Definition init : t := fresh (mkExtra []).

(** The three methods return their value and the object they leave. *)
Definition daily_average (self : t) : result (option Q * t) :=
  if (List.length (vals (fields self)) <? 1)%nat then Ok (curr_val self, self)
  else m <- mean (vals (fields self)) ;; Ok (Some m, self).

Definition daily_variance (self : t) : result (Q * t) :=
  if (List.length (vals (fields self)) <? 2)%nat then Ok (0%Q, self)
  else v <- variance (vals (fields self)) ;; Ok (v, self).

(** What [volatility_alert] computes from a prefix [selected_vals] of two
    items or more, and tests: whether the last item of the prefix is
    strictly within two standard deviations of the mean of the prefix. *)
Definition two_sigma (selected_vals : list (option Q)) : result bool :=
  std_dev <- stdev selected_vals ;;
  new_mean <- mean selected_vals ;;
  x <- last_item selected_vals ;;
  match x with
  | None => Raise TypeError
  | Some x => Ok (within_two std_dev (x - new_mean)%Q)
  end.

(** The [for] loop of [volatility_alert] over the remaining indices [idx];
    [test] is what the body computes from the prefix and tests. *)
Fixpoint volatility_loop (test : list (option Q) -> result bool)
    (self : t) (idx : list nat) : result (bool * t) :=
  match idx with
  | [] => Ok (false, self)
  | i :: idx' =>
      let selected_vals := firstn i (vals (fields self)) in
      if (List.length selected_vals <? 2)%nat then volatility_loop test self idx'
      else
        b <- test selected_vals ;;
        if b : bool then Ok (true, self) else volatility_loop test self idx'
  end.

(** [for i in range(len(self.vals))] *)
Definition volatility_alert (self : t) : result (bool * t) :=
  volatility_loop two_sigma self (seq 0 (List.length (vals (fields self)))).

Definition hourly_update (self : t) : t :=
  set_fields self (mkExtra (vals (fields self) ++ [curr_val self])).

Definition post_daily_update (self : t) : t :=
  set_fields self (mkExtra []).

Definition output_format (self : t) : result (record * t) :=
  date <- attr (curr_date self) strftime_iso ;;
  price <- format_spec (curr_val self) ;;
  '(avg, self) <- daily_average self ;;
  '(var, self) <- daily_variance self ;;
  '(alert, self) <- volatility_alert self ;;
  Ok ([("date", VStr date);
       ("price", VStr price);
       ("dailyAverage", opt VNum avg);
       ("dailyVariance", VNum var);
       ("volatilityalert", VBool alert)]%string, self).

#[global] Instance hooks : Hooks extra record := {
  output_format := output_format;
  hourly_update := hourly_update;
  post_daily_update := post_daily_update
}.

End Schema2.

(** ** Notions the properties are stated with *)

(** The day-boundary test of [new_day] read off the data: there is no
    previous sample, or its day-of-month number differs. *)
Definition is_boundary (prev : option datetime) (dt : datetime) : bool :=
  match prev with
  | None => true
  | Some pd => negb (day pd =? day dt)%Z
  end.

(** Number of day boundaries met while reading [data] after [prev]. *)
Fixpoint boundaries (prev : option datetime) (data : list PriceDateEntry) : nat :=
  match data with
  | [] => 0
  | (dt, _) :: rest =>
      ((if is_boundary prev dt then 1 else 0) + boundaries (Some dt) rest)%nat
  end.

(** The price at the latest day boundary ([pdv] when there was none). *)
Fixpoint day_open (prev : option datetime) (pdv : option Q)
    (data : list PriceDateEntry) : option Q :=
  match data with
  | [] => pdv
  | (dt, p) :: rest =>
      day_open (Some dt) (if is_boundary prev dt then Some p else pdv) rest
  end.

(** The prices read since the latest day boundary, after [acc]. *)
Fixpoint today (prev : option datetime) (acc : list Q)
    (data : list PriceDateEntry) : list Q :=
  match data with
  | [] => acc
  | (dt, p) :: rest =>
      today (Some dt) ((if is_boundary prev dt then [] else acc) ++ [p]) rest
  end.

(** The last sample of [data] ([None] for the empty sequence). *)
Definition last_entry (data : list PriceDateEntry) : option PriceDateEntry :=
  last (map Some data) None.

(** Timestamps in ascending (non-decreasing) order. *)
Definition ascending (data : list PriceDateEntry) : Prop :=
  Sorted (fun a b => dt_le (fst a) (fst b)) data.

(** All samples carry one calendar date. *)
Definition single_day (data : list PriceDateEntry) : Prop :=
  exists dte, Forall (fun e => date_of (fst e) = dte) data.

Definition date_eq_dec (a b : Z * Z * Z) : {a = b} + {a <> b}.
Proof. repeat decide equality. Defined.

(** Number of distinct calendar dates among the timestamps. *)
Definition distinct_days (data : list PriceDateEntry) : nat :=
  List.length (nodup date_eq_dec (map (fun e => date_of (fst e)) data)).

(** Consecutive samples with the same day-of-month number lie on the same
    calendar date (no jump to the same day number of another month). *)
Fixpoint day_numbers_tell (data : list PriceDateEntry) : Prop :=
  match data with
  | a :: (b :: _) as rest =>
      (day (fst a) = day (fst b) -> date_of (fst a) = date_of (fst b))
      /\ day_numbers_tell rest
  | _ => True
  end.

(** What is left of an iteration of [act] once the day-boundary branch is
    done: the hourly update, then [prev] takes [curr]. *)
Definition finish {X R : Type} {H : Hooks X R} (self : DailyPriceStats X)
  : DailyPriceStats X :=
  let self := hourly_update self in
  set_prev self (curr_date self) (curr_val self).

(** The base fields [self'] has when an iteration on [line] started in
    [self]. *)
Definition stepped {X : Type} (self self' : DailyPriceStats X)
    (line : PriceDateEntry) : Prop :=
  curr_date self' = Some (fst line) /\ curr_val self' = Some (snd line) /\
  prev_date self' = Some (fst line) /\ prev_val self' = Some (snd line) /\
  prev_day_val self' =
    (if is_boundary (prev_date self) (fst line) then Some (snd line)
     else prev_day_val self).

(** One index of the loop of [volatility_alert] on numbers [xs]: the prefix
    has two items or more and its last item is within two standard
    deviations of its mean. *)
Definition hit (xs : list Q) (i : nat) : bool :=
  let selected := firstn i xs in
  (2 <=? List.length selected)%nat &&
  within_two (Sqrt (Qvariance selected)) (last selected 0%Q - Qmean selected)%Q.

(** The Dispersion record of a sample at [dt] with price [p] when the
    collected samples are the numbers [xs]. *)
Definition rendered (dt : datetime) (p : Q) (xs : list Q) : record :=
  [("date", VStr (strftime_iso dt));
   ("price", VStr (format_2f p));
   ("dailyAverage", VNum (match xs with [] => p | _ :: _ => Qmean xs end));
   ("dailyVariance",
    VNum (match xs with _ :: _ :: _ => Qvariance xs | _ => 0%Q end));
   ("volatilityalert", VBool (existsb (hit xs) (seq 0 (List.length xs))))]%string.


(** What a call returns, the object apart. *)
Definition returned {A S : Type} (c : result (A * S)) : result A :=
  match c with
  | Ok (a, _) => Ok a
  | Raise e => Raise e
  end.

(** Prices for which the float computations of [statistics] stay in range:
    a squared deviation is at most 10^300, and a variance at most twice
    that. *)
Definition price_in_range (p : Q) : Prop :=
  (0 <= p <= inject_Z (10 ^ 150))%Q.

Definition prices_in_range (data : list PriceDateEntry) : Prop :=
  Forall (fun e => price_in_range (snd e)) data.

(** ** What the loop relies on in a subclass

    The hooks assign to the subclass fields only, and [output_format]
    returns whenever the current sample is set and the subclass fields
    satisfy [Inv]. *)
Class Lawful {X R : Type} (H : Hooks X R) (Inv : X -> Prop) : Prop := {
  hourly_update_fields :
    forall self, exists x, hourly_update self = set_fields self x;
  post_daily_update_fields :
    forall self, exists x, post_daily_update self = set_fields self x;
  hourly_update_inv :
    forall self, Inv (fields self) -> curr_val self <> None ->
      Inv (fields (hourly_update self));
  post_daily_update_inv :
    forall self, Inv (fields self) -> Inv (fields (post_daily_update self));
  output_format_returns :
    forall self, Inv (fields self) ->
      curr_date self <> None -> curr_val self <> None ->
      exists r x, output_format self = Ok (r, set_fields self x) /\ Inv x
}.

(** Both water marks of [Schema1] are set. *)
Definition marks_set (x : Schema1.extra) : Prop :=
  Schema1._min_val x <> None /\ Schema1._max_val x <> None.

(** Every collected sample is a number. *)
Definition numbers (x : Schema2.extra) : Prop :=
  Forall (fun v => v <> None) (Schema2.vals x).

(** ** Notions the further properties are stated with *)

(** The samples at which [new_day] holds while [data] is read after
    [prev]. *)
Fixpoint boundary_samples (prev : option datetime) (data : list PriceDateEntry)
  : list PriceDateEntry :=
  match data with
  | [] => []
  | (dt, p) :: rest =>
      (if is_boundary prev dt then [(dt, p)] else [])
      ++ boundary_samples (Some dt) rest
  end.

(** The water marks of [Schema1] are both unset, or both set with the low
    one not above the high one. *)
Definition marks_ordered (x : Schema1.extra) : Prop :=
  match Schema1._min_val x, Schema1._max_val x with
  | None, None => True
  | Some lo, Some hi => (lo <= hi)%Q
  | _, _ => False
  end.

(** A Dispersion record rendered for a sample and collected numbers whose
    prices all satisfy [G]. *)
Definition rendered_from (G : Q -> Prop) (r : record) : Prop :=
  exists dt p ws, r = rendered dt p ws /\ G p /\ Forall G ws.

(** The samples the Trend strategy can tell apart: those at which
    [new_day] holds, and the last sample. *)
Fixpoint skeleton (prev : option datetime) (data : list PriceDateEntry)
  : list PriceDateEntry :=
  match data with
  | [] => []
  | (dt, p) :: rest =>
      if is_boundary prev dt then (dt, p) :: skeleton (Some dt) rest
      else match rest with
           | [] => [(dt, p)]
           | _ :: _ => skeleton (Some dt) rest
           end
  end.

(** Two objects of [Schema1] that agree on everything but the current and
    the previous sample, and see the same day boundaries. *)
Definition alike (a b : Schema1.t) : Prop :=
  fields a = fields b /\ prev_day_val a = prev_day_val b /\
  forall dt, is_boundary (prev_date a) dt = is_boundary (prev_date b) dt.

(** The flag of a water mark kept by comparisons [cmp mark price], over the
    prices [ps] rendered in turn, starting from the mark [m]. *)
Fixpoint mark_flags (cmp : Q -> Q -> bool) (m : option Q) (ps : list Q)
  : list value :=
  match ps with
  | [] => []
  | p :: ps' =>
      match m with
      | None => VNone :: mark_flags cmp (Some p) ps'
      | Some m0 =>
          if cmp m0 p then VBool true :: mark_flags cmp (Some p) ps'
          else VBool false :: mark_flags cmp m ps'
      end
  end.

(** The flag said without a mark: null for the first price, and then
    whether [cmp q p] holds for every price [q] rendered before [p]. *)
Fixpoint beats_all (cmp : Q -> Q -> bool) (seen ps : list Q) : list value :=
  match ps with
  | [] => []
  | p :: ps' =>
      match seen with
      | [] => VNone
      | _ :: _ => VBool (forallb (fun q => cmp q p) seen)
      end :: beats_all cmp (seen ++ [p]) ps'
  end.

(** * Properties *)

(** ** Formatting and calendar: sanity checks *)

Example strftime_iso_ex :
  strftime_iso (mkDatetime 2020 1 15 9 0 0) = "2020-01-15T09:00:00"%string.
Proof. reflexivity. Qed.

Example strftime_A_ex :
  strftime_A (mkDatetime 2020 1 15 9 0 0) = "Wednesday"%string.
Proof. reflexivity. Qed.

Example format_2f_ex :
  format_2f (-10) = "-10.00"%string /\ format_2f (1257 # 100) = "12.57"%string /\
  format_2f (1 # 8) = "0.12"%string /\ format_2f (-(1 # 1000)) = "-0.00"%string.
Proof. repeat split; reflexivity. Qed.

(** ** Two runs

    Two samples of one day, then one of the next day. *)

Example trend_run :
  fst (act Schema1.init
         [(mkDatetime 2020 1 1 9 0 0, 100%Q);
          (mkDatetime 2020 1 1 10 0 0, 110%Q);
          (mkDatetime 2020 1 2 9 0 0, 90%Q)]) =
  [[("date", VStr "2020-01-01T09:00:00"); ("price", VStr "100.00");
    ("direction", VNone); ("change", VNone); ("dayOfWeek", VStr "Wednesday");
    ("highSinceStart", VNone); ("lowSinceStart", VNone)];
   [("date", VStr "2020-01-02T09:00:00"); ("price", VStr "90.00");
    ("direction", VStr "down"); ("change", VStr "-10.00");
    ("dayOfWeek", VStr "Thursday");
    ("highSinceStart", VBool false); ("lowSinceStart", VBool true)];
   [("date", VStr "2020-01-02T09:00:00"); ("price", VStr "90.00");
    ("direction", VStr "same"); ("change", VNone);
    ("dayOfWeek", VStr "Thursday");
    ("highSinceStart", VBool false); ("lowSinceStart", VBool false)]]%string.
Proof. reflexivity. Qed.

Example dispersion_run :
  map (fun r => (get "dailyAverage" r, get "dailyVariance" r, get "volatilityalert" r))
    (fst (act Schema2.init
            [(mkDatetime 2020 1 1 9 0 0, 100%Q);
             (mkDatetime 2020 1 1 10 0 0, 110%Q);
             (mkDatetime 2020 1 2 9 0 0, 90%Q)])) =
  [(Some (VNum 100%Q), Some (VNum 0%Q), Some (VBool false));
   (Some (VNum (Qmean [100; 110]%Q)), Some (VNum (Qvariance [100; 110]%Q)),
    Some (VBool false));
   (Some (VNum (Qmean [90; 90]%Q)), Some (VNum (Qvariance [90; 90]%Q)),
    Some (VBool false))].
Proof. reflexivity. Qed.

Example dispersion_run_values :
  (Qmean [100; 110]%Q == 105)%Q /\ (Qvariance [100; 110]%Q == 50)%Q /\
  (Qmean [90; 90]%Q == 90)%Q /\ (Qvariance [90; 90]%Q == 0)%Q.
Proof. repeat split; reflexivity. Qed.

(** ** The loop, for any subclass *)

Lemma last_entry_cons (a : PriceDateEntry) (rest : list PriceDateEntry) :
  last_entry (a :: rest) =
  match rest with [] => Some a | _ :: _ => last_entry rest end.
Proof. destruct rest; reflexivity. Qed.

Lemma last_entry_none (data : list PriceDateEntry) :
  last_entry data = None <-> data = [].
Proof.
  split; [| intros ->; reflexivity].
  induction data as [| a rest IH]; [reflexivity |].
  rewrite last_entry_cons. destruct rest; [discriminate |].
  intros E. specialize (IH E). discriminate.
Qed.

Section Loop.
Context {X R : Type} {H : Hooks X R}.

Lemma new_day_set_curr (self : DailyPriceStats X) (line : PriceDateEntry) :
  new_day (set_curr self line) = Ok (is_boundary (prev_date self) (fst line)).
Proof.
  unfold new_day, is_boundary; simpl. destruct (prev_date self); reflexivity.
Qed.

Lemma act_body_boundary (self : DailyPriceStats X) (line : PriceDateEntry) :
  is_boundary (prev_date self) (fst line) = true ->
  act_body self line =
  match output_format (set_curr self line) with
  | Raise e => Raise e
  | Ok (r, s) =>
      let s := post_daily_update s in
      Ok ([r], finish (set_prev_day_val s (curr_val s)))
  end.
Proof.
  intros B. unfold act_body. rewrite new_day_set_curr, B. simpl.
  destruct (output_format (set_curr self line)) as [[r s] | e]; reflexivity.
Qed.

Lemma act_body_same_day (self : DailyPriceStats X) (line : PriceDateEntry) :
  is_boundary (prev_date self) (fst line) = false ->
  act_body self line = Ok ([], finish (set_curr self line)).
Proof.
  intros B. unfold act_body. rewrite new_day_set_curr, B. reflexivity.
Qed.

Lemma act_loop_app (l1 l2 : list PriceDateEntry) :
  forall self,
  act_loop self (l1 ++ l2) =
  match act_loop self l1 with
  | (ys1, Raise e) => (ys1, Raise e)
  | (ys1, Ok s1) => let (ys2, res) := act_loop s1 l2 in (ys1 ++ ys2, res)
  end.
Proof.
  induction l1 as [| a l1 IH]; intros self; simpl.
  - destruct (act_loop self l2); reflexivity.
  - destruct (act_body self a) as [[out s] | e]; [| reflexivity].
    rewrite IH. destruct (act_loop s l1) as [ys1 [s1 | e]]; [| reflexivity].
    destruct (act_loop s1 l2) as [ys2 res]. rewrite app_assoc. reflexivity.
Qed.

Context {Inv : X -> Prop} {L : Lawful H Inv}.

Lemma finish_spec (self : DailyPriceStats X) :
  Inv (fields self) -> curr_val self <> None ->
  let self' := finish self in
  curr_date self' = curr_date self /\ curr_val self' = curr_val self /\
  prev_date self' = curr_date self /\ prev_val self' = curr_val self /\
  prev_day_val self' = prev_day_val self /\ Inv (fields self').
Proof.
  intros I C. unfold finish.
  pose proof (hourly_update_inv self I C) as I'.
  destruct (hourly_update_fields self) as [x E]. rewrite E in *.
  simpl. repeat split; assumption.
Qed.

Lemma act_body_ok (self : DailyPriceStats X) (line : PriceDateEntry) :
  Inv (fields self) ->
  exists out self',
    act_body self line = Ok (out, self') /\ stepped self self' line /\
    Inv (fields self') /\
    List.length out = (if is_boundary (prev_date self) (fst line) then 1 else 0)%nat.
Proof.
  intros I. destruct (is_boundary (prev_date self) (fst line)) eqn:B.
  - rewrite (act_body_boundary _ _ B).
    destruct (output_format_returns (set_curr self line) I) as (r & x & E & Ix);
      [discriminate | discriminate |].
    rewrite E. cbv zeta.
    set (s := set_fields (set_curr self line) x).
    pose proof (post_daily_update_inv s Ix) as Ip.
    destruct (post_daily_update_fields s) as [x' E']. rewrite E' in *.
    set (s' := set_prev_day_val _ _).
    assert (I' : Inv (fields s')) by exact Ip.
    assert (C' : curr_val s' <> None) by (simpl; discriminate).
    destruct (finish_spec s' I' C') as (F1 & F2 & F3 & F4 & F5 & F6).
    exists [r], (finish s'). unfold stepped. rewrite B, F1, F2, F3, F4, F5.
    repeat split; auto.
  - rewrite (act_body_same_day _ _ B).
    assert (C' : curr_val (set_curr self line) <> None) by (simpl; discriminate).
    destruct (finish_spec (set_curr self line) I C') as (F1 & F2 & F3 & F4 & F5 & F6).
    exists [], (finish (set_curr self line)). unfold stepped.
    rewrite B, F1, F2, F3, F4, F5. repeat split; auto.
Qed.

(** The loop never raises; it yields one record per day boundary and leaves
    the base fields as the data dictate. *)
Lemma act_loop_ok (data : list PriceDateEntry) :
  forall self, Inv (fields self) ->
  exists ys self',
    act_loop self data = (ys, Ok self') /\ Inv (fields self') /\
    List.length ys = boundaries (prev_date self) data /\
    prev_day_val self' = day_open (prev_date self) (prev_day_val self) data /\
    match last_entry data with
    | None => self' = self
    | Some e =>
        curr_date self' = Some (fst e) /\ curr_val self' = Some (snd e) /\
        prev_date self' = Some (fst e) /\ prev_val self' = Some (snd e)
    end.
Proof.
  induction data as [| [dt p] rest IH]; intros self I.
  - exists [], self. simpl. repeat split; auto.
  - destruct (act_body_ok self (dt, p) I) as (out & s & E & St & Is & Lo).
    destruct St as (S1 & S2 & S3 & S4 & S5). simpl in *.
    destruct (IH s Is) as (ys & s' & E' & I' & Ly & Pd & La).
    exists (out ++ ys), s'. rewrite E, E'.
    split; [reflexivity |]. split; [assumption |].
    split; [rewrite length_app, Lo, Ly, S3; reflexivity |].
    split; [rewrite Pd, S3, S5; reflexivity |].
    rewrite last_entry_cons. destruct rest as [| b rest'].
    + simpl in La. subst s'. auto.
    + destruct (last_entry (b :: rest')) eqn:El; [exact La |].
      apply last_entry_none in El. discriminate.
Qed.

(** The whole generator returns and yields one record more than the loop. *)
Lemma act_ok (data : list PriceDateEntry) (self : DailyPriceStats X) :
  Inv (fields self) -> data <> [] ->
  exists ys s r s',
    act_loop self data = (ys, Ok s) /\
    output_format (hourly_update s) = Ok (r, s') /\
    act self data = (ys ++ [r], Ok s') /\
    List.length ys = boundaries (prev_date self) data.
Proof.
  intros I N.
  destruct (act_loop_ok data self I) as (ys & s & E & Is & Ly & _ & La).
  destruct (last_entry data) as [e |] eqn:El;
    [| apply last_entry_none in El; contradiction].
  destruct La as (C1 & C2 & _).
  assert (C2' : curr_val s <> None) by (rewrite C2; discriminate).
  pose proof (hourly_update_inv s Is C2') as Ih.
  destruct (hourly_update_fields s) as [x Ex].
  destruct (output_format_returns (hourly_update s) Ih) as (r & x' & Er & _).
  { rewrite Ex; simpl; rewrite C1; discriminate. }
  { rewrite Ex; simpl; assumption. }
  exists ys, s, r, (set_fields (hourly_update s) x').
  unfold act. rewrite E, Er. auto.
Qed.

End Loop.

(** ** Schema1 keeps the loop's assumptions *)

#[global] Instance Schema1_lawful : Lawful Schema1.hooks (fun _ => True).
Proof.
  constructor; simpl; auto.
  - intros self. exists (fields self). destruct self; reflexivity.
  - intros self. exists (fields self). destruct self; reflexivity.
  - intros [cv cd pv pd pdv [mn mx]] _ Hd Hv; simpl in *.
    destruct cd as [cd |]; [| contradiction].
    destruct cv as [cv |]; [| contradiction].
    unfold Schema1.output_format, Schema1.direction, Schema1.change,
      Schema1.day_of_week, Schema1.high_since_start, Schema1.low_since_start,
      Schema1.set_max, Schema1.set_min, set_fields; simpl.
    destruct pdv as [pdv |], mx as [mx |], mn as [mn |]; simpl;
      repeat match goal with
             | |- context [if Qltb ?a ?b then _ else _] => destruct (Qltb a b); simpl
             end;
      eexists; eexists; (split; [reflexivity | exact Logic.I]).
Qed.

(** ** The statistics on numbers *)

Lemma floats_map_Some (xs : list Q) : floats (map Some xs) = Ok xs.
Proof.
  induction xs as [| x xs IH]; simpl; [reflexivity |]. rewrite IH. reflexivity.
Qed.

Lemma numbers_map (vs : list (option Q)) :
  Forall (fun v => v <> None) vs -> exists xs, vs = map Some xs.
Proof.
  induction 1 as [| v vs Hv _ [xs ->]].
  - exists []. reflexivity.
  - destruct v as [x |]; [| contradiction]. exists (x :: xs). reflexivity.
Qed.

Lemma mean_map_Some (xs : list Q) :
  (1 <= List.length xs)%nat -> mean (map Some xs) = Ok (Qmean xs).
Proof.
  intros N. unfold mean. rewrite length_map, floats_map_Some.
  destruct (Nat.ltb_spec (List.length xs) 1); [lia | reflexivity].
Qed.

Lemma variance_map_Some (xs : list Q) :
  (2 <= List.length xs)%nat -> variance (map Some xs) = Ok (Qvariance xs).
Proof.
  intros N. unfold variance. rewrite length_map, floats_map_Some.
  destruct (Nat.ltb_spec (List.length xs) 2); [lia | reflexivity].
Qed.

Lemma last_item_map_Some (xs : list Q) :
  (1 <= List.length xs)%nat -> last_item (map Some xs) = Ok (Some (last xs 0%Q)).
Proof.
  intros N. destruct xs as [| x xs] using rev_ind; [simpl in N; lia |].
  unfold last_item. rewrite map_app, rev_app_distr, last_last. reflexivity.
Qed.

Lemma volatility_loop_spec (self : Schema2.t) (xs : list Q) (idx : list nat) :
  Schema2.vals (fields self) = map Some xs ->
  Schema2.volatility_loop Schema2.two_sigma self idx =
  Ok (existsb (hit xs) idx, self).
Proof.
  intros V. induction idx as [| i idx IH]; simpl; [reflexivity |].
  unfold hit at 1. rewrite V, firstn_map, length_map.
  set (sel := firstn i xs).
  destruct (Nat.ltb_spec (List.length sel) 2) as [Lt | Ge].
  - destruct (Nat.leb_spec 2 (List.length sel)); [lia |]. exact IH.
  - destruct (Nat.leb_spec 2 (List.length sel)); [| lia].
    unfold Schema2.two_sigma, stdev.
    rewrite variance_map_Some, mean_map_Some, last_item_map_Some by lia.
    simpl. destruct (within_two _ _); [reflexivity | exact IH].
Qed.

(** ** The methods of Schema2 leave the object as it was *)

Lemma daily_average_pure (self : Schema2.t) (a : option Q) (s : Schema2.t) :
  Schema2.daily_average self = Ok (a, s) -> s = self.
Proof.
  unfold Schema2.daily_average.
  destruct (List.length (Schema2.vals (fields self)) <? 1)%nat.
  - intros E. injection E as _ <-. reflexivity.
  - destruct (mean _); simpl; [| discriminate].
    intros E. injection E as _ <-. reflexivity.
Qed.

Lemma daily_variance_pure (self : Schema2.t) (v : Q) (s : Schema2.t) :
  Schema2.daily_variance self = Ok (v, s) -> s = self.
Proof.
  unfold Schema2.daily_variance.
  destruct (List.length (Schema2.vals (fields self)) <? 2)%nat.
  - intros E. injection E as _ <-. reflexivity.
  - destruct (variance _); simpl; [| discriminate].
    intros E. injection E as _ <-. reflexivity.
Qed.

Lemma volatility_loop_pure (test : list (option Q) -> result bool)
    (self : Schema2.t) (idx : list nat) (b : bool) (s : Schema2.t) :
  Schema2.volatility_loop test self idx = Ok (b, s) -> s = self.
Proof.
  induction idx as [| i idx IH]; simpl.
  - intros E. injection E as _ <-. reflexivity.
  - destruct (List.length (firstn i (Schema2.vals (fields self))) <? 2)%nat;
      [exact IH |].
    destruct (test _) as [[|] |]; simpl; [| exact IH | discriminate].
    intros E. injection E as _ <-. reflexivity.
Qed.

Lemma volatility_alert_pure (self : Schema2.t) (b : bool) (s : Schema2.t) :
  Schema2.volatility_alert self = Ok (b, s) -> s = self.
Proof. apply volatility_loop_pure. Qed.

Lemma Schema2_output_format_pure (self : Schema2.t) (r : record) (self' : Schema2.t) :
  Schema2.output_format self = Ok (r, self') -> self' = self.
Proof.
  unfold Schema2.output_format.
  destruct (attr _ _); [| discriminate]. simpl.
  destruct (format_spec _); [| discriminate]. simpl.
  destruct (Schema2.daily_average self) as [[avg s1] |] eqn:Ea; [| discriminate].
  apply daily_average_pure in Ea. subst s1. simpl.
  destruct (Schema2.daily_variance self) as [[var s2] |] eqn:Ev; [| discriminate].
  apply daily_variance_pure in Ev. subst s2. simpl.
  destruct (Schema2.volatility_alert self) as [[alert s3] |] eqn:Eb; [| discriminate].
  apply volatility_alert_pure in Eb. subst s3. simpl.
  intros E. injection E as _ E. symmetry. exact E.
Qed.

(** ** Schema2 keeps the loop's assumptions *)

Lemma Schema2_output_format_numbers (self : Schema2.t) (xs : list Q) (dt : datetime) (p : Q) :
  Schema2.vals (fields self) = map Some xs ->
  curr_date self = Some dt -> curr_val self = Some p ->
  Schema2.output_format self = Ok (rendered dt p xs, self).
Proof.
  intros V D P. unfold rendered.
  assert (Ea : Schema2.daily_average self =
               Ok (Some (match xs with [] => p | _ :: _ => Qmean xs end), self)).
  { unfold Schema2.daily_average. rewrite V, P, length_map.
    destruct xs as [| x xs]; [reflexivity |].
    rewrite (mean_map_Some (x :: xs)) by (simpl; lia). reflexivity. }
  assert (Ev : Schema2.daily_variance self =
               Ok (match xs with _ :: _ :: _ => Qvariance xs | _ => 0%Q end, self)).
  { unfold Schema2.daily_variance. rewrite V, length_map.
    destruct xs as [| x [| y xs]]; try reflexivity.
    rewrite (variance_map_Some (x :: y :: xs)) by (simpl; lia). reflexivity. }
  assert (Eb : Schema2.volatility_alert self =
               Ok (existsb (hit xs) (seq 0 (List.length xs)), self)).
  { unfold Schema2.volatility_alert. rewrite V, length_map.
    apply volatility_loop_spec. exact V. }
  unfold Schema2.output_format. rewrite D, P. unfold attr, format_spec.
  cbn [bind]. rewrite Ea. cbn [bind]. rewrite Ev. cbn [bind]. rewrite Eb.
  reflexivity.
Qed.

#[global] Instance Schema2_lawful : Lawful Schema2.hooks numbers.
Proof.
  constructor; simpl.
  - intros self. eexists. reflexivity.
  - intros self. eexists. reflexivity.
  - intros self I C. unfold numbers in *. simpl.
    apply Forall_app. split; [assumption |]. constructor; auto.
  - intros self _. constructor.
  - intros self I Hd Hv.
    destruct (numbers_map _ I) as [xs V].
    destruct (curr_date self) as [dt |] eqn:D; [| contradiction].
    destruct (curr_val self) as [p |] eqn:P; [| contradiction].
    rewrite (Schema2_output_format_numbers self xs dt p V D P).
    eexists. exists (fields self). split; [| exact I].
    destruct self; reflexivity.
Qed.

(** Once both water marks are set they stay set, whatever is rendered. *)
#[global] Instance Schema1_marks : Lawful Schema1.hooks marks_set.
Proof.
  constructor; simpl; auto.
  - intros self. exists (fields self). destruct self; reflexivity.
  - intros self. exists (fields self). destruct self; reflexivity.
  - intros [cv cd pv pd pdv [mn mx]] [Hn Hx] Hd Hv; simpl in *.
    destruct cd as [cd |]; [| contradiction].
    destruct cv as [cv |]; [| contradiction].
    destruct mn as [mn |]; [| contradiction].
    destruct mx as [mx |]; [| contradiction].
    unfold Schema1.output_format, Schema1.direction, Schema1.change,
      Schema1.day_of_week, Schema1.high_since_start, Schema1.low_since_start,
      Schema1.set_max, Schema1.set_min, set_fields, marks_set; simpl.
    destruct pdv as [pdv |]; simpl;
      repeat match goal with
             | |- context [if Qltb ?a ?b then _ else _] => destruct (Qltb a b); simpl
             end;
      eexists; eexists; (split; [reflexivity | simpl; split; discriminate]).
Qed.

(** A render with the start-of-day price and both water marks set: every
    derived item but ["change"] is present. *)
Lemma Schema1_render_later (self : Schema1.t) :
  curr_date self <> None -> curr_val self <> None ->
  prev_day_val self <> None -> marks_set (fields self) ->
  exists r self', Schema1.output_format self = Ok (r, self') /\
    exists dir hi lo,
      get "direction" r = Some (VStr dir) /\
      get "highSinceStart" r = Some (VBool hi) /\
      get "lowSinceStart" r = Some (VBool lo).
Proof.
  destruct self as [cv cd pv pd pdv [mn mx]]; simpl.
  intros Hd Hv Hp [Hn Hx]; simpl in *.
  destruct cd as [cd |]; [| contradiction].
  destruct cv as [cv |]; [| contradiction].
  destruct pdv as [pdv |]; [| contradiction].
  destruct mn as [mn |]; [| contradiction].
  destruct mx as [mx |]; [| contradiction].
  unfold Schema1.output_format, Schema1.direction, Schema1.change,
    Schema1.day_of_week, Schema1.high_since_start, Schema1.low_since_start,
    Schema1.set_max, Schema1.set_min, set_fields; simpl.
  repeat match goal with
         | |- context [if Qltb ?a ?b then _ else _] => destruct (Qltb a b); simpl
         end;
    eexists; eexists; (split; [reflexivity |]);
    eexists; eexists; eexists; repeat split; reflexivity.
Qed.

Lemma day_open_some (data : list PriceDateEntry) :
  forall prev pdv, pdv <> None -> day_open prev pdv data <> None.
Proof.
  induction data as [| [dt p] rest IH]; intros prev pdv N; simpl; [assumption |].
  apply IH. destruct (is_boundary prev dt); [discriminate | assumption].
Qed.

Lemma boundaries_single_day (rest : list PriceDateEntry) (dte : Z * Z * Z) :
  Forall (fun e => date_of (fst e) = dte) rest ->
  forall dt, date_of dt = dte -> boundaries (Some dt) rest = 0%nat.
Proof.
  induction 1 as [| [dt' p'] rest Hd _ IH]; intros dt E; simpl; [reflexivity |].
  simpl in Hd. rewrite (IH dt' Hd).
  unfold date_of in *. rewrite <- E in Hd. injection Hd as _ _ Hday.
  rewrite Hday, Z.eqb_refl. reflexivity.
Qed.

Section Generator.
Context {X R : Type} {H : Hooks X R}.

Lemma act_cons (self : DailyPriceStats X) (line : PriceDateEntry)
    (rest : list PriceDateEntry) :
  act self (line :: rest) =
  match act_body self line with
  | Raise e => ([], Raise e)
  | Ok (out, s) => let (ys, res) := act s rest in (out ++ ys, res)
  end.
Proof.
  unfold act. simpl.
  destruct (act_body self line) as [[out s] | e]; [| reflexivity].
  destruct (act_loop s rest) as [ys [s' | e]]; [| reflexivity].
  destruct (output_format (hourly_update s')) as [[r s''] | e];
    [rewrite app_assoc |]; reflexivity.
Qed.

Context {Inv : X -> Prop} {L : Lawful H Inv}.

(** From an object whose current sample is set, the generator returns
    whatever the data. *)
Lemma act_ready (data : list PriceDateEntry) (self : DailyPriceStats X) :
  Inv (fields self) -> curr_date self <> None -> curr_val self <> None ->
  exists ys s r s',
    act_loop self data = (ys, Ok s) /\
    output_format (hourly_update s) = Ok (r, s') /\
    act self data = (ys ++ [r], Ok s') /\
    List.length ys = boundaries (prev_date self) data /\
    Inv (fields s) /\ curr_date s <> None /\ curr_val s <> None /\
    prev_day_val s = day_open (prev_date self) (prev_day_val self) data.
Proof.
  intros I Cd Cv.
  destruct (act_loop_ok data self I) as (ys & s & E & Is & Ly & Pd & La).
  assert (C : curr_date s <> None /\ curr_val s <> None).
  { destruct (last_entry data) as [e |].
    - destruct La as (C1 & C2 & _). rewrite C1, C2. split; discriminate.
    - subst s. split; assumption. }
  destruct C as [Cd' Cv'].
  pose proof (hourly_update_inv s Is Cv') as Ih.
  destruct (hourly_update_fields s) as [x Ex].
  destruct (output_format_returns (hourly_update s) Ih) as (r & x' & Er & _).
  { rewrite Ex; simpl; assumption. }
  { rewrite Ex; simpl; assumption. }
  exists ys, s, r, (set_fields (hourly_update s) x').
  unfold act. rewrite E, Er. auto 10.
Qed.

End Generator.

(** The first iteration from a fresh object, in both subclasses. *)
Lemma Schema1_first (dt : datetime) (p : Q) :
  act_body Schema1.init (dt, p) =
  Ok ([[("date", VStr (strftime_iso dt));
        ("price", VStr (format_2f p));
        ("direction", VNone);
        ("change", VNone);
        ("dayOfWeek", VStr (strftime_A dt));
        ("highSinceStart", VNone);
        ("lowSinceStart", VNone)]%string],
      mkStats (Some p) (Some dt) (Some p) (Some dt) (Some p)
        (Schema1.mkExtra (Some p) (Some p))).
Proof. reflexivity. Qed.

Lemma Schema2_first (dt : datetime) (p : Q) :
  act_body Schema2.init (dt, p) =
  Ok ([[("date", VStr (strftime_iso dt));
        ("price", VStr (format_2f p));
        ("dailyAverage", VNum p);
        ("dailyVariance", VNum 0);
        ("volatilityalert", VBool false)]%string],
      mkStats (Some p) (Some dt) (Some p) (Some dt) (Some p)
        (Schema2.mkExtra [Some p])).
Proof. reflexivity. Qed.

(** ** The samples the Dispersion strategy has collected *)

Lemma Schema2_act_body (self : Schema2.t) (xs : list Q) (line : PriceDateEntry) :
  Schema2.vals (fields self) = map Some xs ->
  exists out s,
    act_body self line = Ok (out, s) /\
    prev_date s = Some (fst line) /\
    Schema2.vals (fields s) =
      map Some ((if is_boundary (prev_date self) (fst line) then [] else xs)
                ++ [snd line]).
Proof.
  intros V. destruct (is_boundary (prev_date self) (fst line)) eqn:B.
  - rewrite (act_body_boundary _ _ B).
    change (@output_format _ _ Schema2.hooks) with Schema2.output_format.
    rewrite (Schema2_output_format_numbers (set_curr self line) xs
               (fst line) (snd line) V eq_refl eq_refl).
    eexists _, _. split; [reflexivity |]. split; reflexivity.
  - rewrite (act_body_same_day _ _ B).
    eexists _, _. split; [reflexivity |]. split; [reflexivity |].
    simpl. rewrite V, map_app. reflexivity.
Qed.

Lemma Schema2_act_loop (data : list PriceDateEntry) :
  forall (self : Schema2.t) (xs : list Q),
  Schema2.vals (fields self) = map Some xs ->
  exists ys s,
    act_loop self data = (ys, Ok s) /\
    Schema2.vals (fields s) = map Some (today (prev_date self) xs data).
Proof.
  induction data as [| [dt p] rest IH]; intros self xs V.
  - exists [], self. split; [reflexivity | exact V].
  - destruct (Schema2_act_body self xs (dt, p) V) as (out & s & E & Pd & V').
    destruct (IH s _ V') as (ys & s' & E' & V'').
    exists (out ++ ys), s'. simpl. rewrite E, E'. split; [reflexivity |].
    rewrite V'', Pd. reflexivity.
Qed.


Section Boundary.
Context {X R : Type} {H : Hooks X R}.

Lemma act_app (l1 l2 : list PriceDateEntry) (self : DailyPriceStats X) :
  act self (l1 ++ l2) =
  match act_loop self l1 with
  | (ys1, Raise e) => (ys1, Raise e)
  | (ys1, Ok s1) => let (ys2, res) := act s1 l2 in (ys1 ++ ys2, res)
  end.
Proof.
  unfold act. rewrite act_loop_app.
  destruct (act_loop self l1) as [ys1 [s1 | e]]; [| reflexivity].
  destruct (act_loop s1 l2) as [ys2 [s2 | e]]; [| reflexivity].
  destruct (output_format (hourly_update s2)) as [[r s] | e];
    [rewrite app_assoc |]; reflexivity.
Qed.

Context {Inv : X -> Prop} {L : Lawful H Inv}.

(** The record of a day boundary is the render of the object the loop had
    reached on the samples before, with the new sample as current one. *)
Lemma boundary_render (x : X) (seen : list PriceDateEntry)
    (line : PriceDateEntry) (rest : list PriceDateEntry) :
  Inv x ->
  is_boundary (option_map fst (last_entry seen)) (fst line) = true ->
  exists ys s r s_r ys' res,
    act_loop (fresh x) seen = (ys, Ok s) /\
    output_format (set_curr s line) = Ok (r, s_r) /\
    act (fresh x) (seen ++ line :: rest) = (ys ++ r :: ys', res) /\
    prev_day_val s = day_open None None seen /\
    prev_date s = option_map fst (last_entry seen).
Proof.
  intros I B.
  destruct (act_loop_ok seen (fresh x) I) as (ys & s & E & Is & _ & Pd & La).
  assert (P : prev_date s = option_map fst (last_entry seen)).
  { destruct (last_entry seen) as [e |].
    - destruct La as (_ & _ & -> & _). reflexivity.
    - subst s. reflexivity. }
  rewrite <- P in B.
  destruct (output_format_returns (set_curr s line) Is) as (r & x' & Er & _);
    [discriminate | discriminate |].
  rewrite act_app, E, act_cons, (act_body_boundary _ _ B), Er.
  cbv beta iota zeta.
  match goal with
  | |- context [act ?s0 rest] => destruct (act s0 rest) as [ys' res]
  end.
  exists ys, s, r, (set_fields (set_curr s line) x'), ys', res.
  repeat split; auto.
Qed.

End Boundary.

Lemma Schema1_render_change (self : Schema1.t) (r : record) (self' : Schema1.t) (p : Q) :
  Schema1.output_format self = Ok (r, self') -> curr_val self = Some p ->
  get "change" r =
  Some (Schema1.change_item (option_map (fun o => (p - o)%Q) (prev_day_val self))).
Proof.
  destruct self as [cv cd pv pd pdv [mn mx]]; simpl. intros E ->. revert E.
  unfold Schema1.output_format, Schema1.direction, Schema1.change,
    Schema1.day_of_week, Schema1.high_since_start, Schema1.low_since_start,
    Schema1.set_max, Schema1.set_min, set_fields; simpl.
  destruct cd as [cd |]; simpl; [| discriminate].
  destruct pdv as [pdv |], mx as [mx |], mn as [mn |]; simpl;
    repeat match goal with
           | |- context [if Qltb ?a ?b then _ else _] => destruct (Qltb a b); simpl
           end;
    intros E; injection E as <- _; reflexivity.
Qed.

(** ** C1: a sequence confined to one calendar day *)

(** C1, as stated, fails: a single sample (a non-empty ascending sequence
    within one calendar day) makes both strategies emit two records, since
    the first sample counts as a day boundary. *)
Lemma single_day_emits_two :
  let data := [(mkDatetime 2020 1 15 9 0 0, 100%Q)] in
  data <> [] /\ ascending data /\ single_day data /\
  List.length (fst (act Schema1.init data)) = 2%nat /\
  List.length (fst (act Schema2.init data)) = 2%nat.
Proof.
  cbv zeta. split; [discriminate |]. split; [repeat constructor |].
  split; [exists (2020, 1, 15)%Z; repeat constructor |].
  split; reflexivity.
Qed.

(** C1, amended: for every non-empty sample sequence within a single
    calendar day, [act] emits exactly two records: one when the first
    sample is read and the trailing one.  The Trend strategy does so
    whatever the prices, its first record with change, direction,
    highSinceStart and lowSinceStart absent and the trailing one with
    direction, highSinceStart and lowSinceStart present; the Dispersion
    strategy does so for prices in range, for which its statistics do not
    overflow. *)
Theorem single_day_records (data : list PriceDateEntry) :
  data <> [] -> single_day data ->
  (exists r1 r2 s,
      act Schema1.init data = ([r1; r2], Ok s) /\
      get "change" r1 = Some VNone /\
      get "direction" r1 = Some VNone /\
      get "highSinceStart" r1 = Some VNone /\
      get "lowSinceStart" r1 = Some VNone /\
      exists dir hi lo,
        get "direction" r2 = Some (VStr dir) /\
        get "highSinceStart" r2 = Some (VBool hi) /\
        get "lowSinceStart" r2 = Some (VBool lo)) /\
  (prices_in_range data ->
   exists q1 q2 s, act Schema2.init data = ([q1; q2], Ok s)).
Proof.
  intros N [dte F]. destruct data as [| [dt p] rest]; [contradiction |].
  apply Forall_cons_iff in F as [Hd Fr]. simpl in Hd.
  pose proof (boundaries_single_day rest _ Fr dt Hd) as B.
  split.
  - rewrite act_cons, Schema1_first.
    set (s1 := mkStats _ _ _ _ _ _).
    destruct (act_ready (Inv := marks_set) rest s1)
      as (ys & s & r2 & s' & _ & Er & Ea & Ly & Is & Cd & Cv & Pd);
      try (simpl; discriminate); [split; simpl; discriminate |].
    simpl in Ly. rewrite B in Ly. destruct ys; [| discriminate]. rewrite Ea.
    eexists _, r2, s'. split; [reflexivity |]. repeat (split; [reflexivity |]).
    destruct (Schema1_render_later s Cd Cv) as (r & s'' & Er' & Items); [| exact Is |].
    + rewrite Pd. apply day_open_some. discriminate.
    + change (Schema1.output_format s = Ok (r2, s')) in Er. rewrite Er in Er'.
      injection Er' as -> _. exact Items.
  - intros _. rewrite act_cons, Schema2_first.
    set (s1 := mkStats _ _ _ _ _ _).
    destruct (act_ready (Inv := numbers) rest s1)
      as (ys & s & r2 & s' & _ & _ & Ea & Ly & _);
      try (simpl; discriminate); [repeat constructor; discriminate |].
    simpl in Ly. rewrite B in Ly. destruct ys; [| discriminate]. rewrite Ea.
    eexists _, r2, s'. reflexivity.
Qed.

Lemma single_day_records_witness :
  let data := [(mkDatetime 2020 1 15 9 0 0, 100%Q);
               (mkDatetime 2020 1 15 10 0 0, 110%Q)] in
  data <> [] /\ single_day data /\ prices_in_range data /\
  (exists r1 r2 s,
      act Schema1.init data = ([r1; r2], Ok s) /\
      get "change" r1 = Some VNone /\
      get "direction" r1 = Some VNone /\
      get "highSinceStart" r1 = Some VNone /\
      get "lowSinceStart" r1 = Some VNone /\
      exists dir hi lo,
        get "direction" r2 = Some (VStr dir) /\
        get "highSinceStart" r2 = Some (VBool hi) /\
        get "lowSinceStart" r2 = Some (VBool lo)) /\
  (exists q1 q2 s, act Schema2.init data = ([q1; q2], Ok s)).
Proof.
  cbv zeta.
  assert (N : [(mkDatetime 2020 1 15 9 0 0, 100%Q);
               (mkDatetime 2020 1 15 10 0 0, 110%Q)] <> []) by discriminate.
  assert (S : single_day [(mkDatetime 2020 1 15 9 0 0, 100%Q);
                          (mkDatetime 2020 1 15 10 0 0, 110%Q)]).
  { exists (2020, 1, 15)%Z. repeat constructor. }
  assert (P : prices_in_range [(mkDatetime 2020 1 15 9 0 0, 100%Q);
                               (mkDatetime 2020 1 15 10 0 0, 110%Q)]).
  { repeat constructor; vm_compute; discriminate. }
  split; [exact N |]. split; [exact S |]. split; [exact P |].
  destruct (single_day_records _ N S) as [T D].
  split; [exact T | exact (D P)].
Defined.

(** ** C2: one record per day, and one more *)

Lemma dt_le_trans (a b c : datetime) : dt_le a b -> dt_le b c -> dt_le a c.
Proof. unfold dt_le. lia. Qed.

(** Between two timestamps of one date, every timestamp has that date. *)
Lemma date_of_between (a b c : datetime) :
  dt_le a b -> dt_le b c -> date_of a = date_of c -> date_of a = date_of b.
Proof.
  unfold dt_le, date_of. intros Hab Hbc E. injection E as Ey Em Ed.
  assert (year a = year b /\ month a = month b /\ day a = day b) as (-> & -> & ->)
    by lia.
  reflexivity.
Qed.

Lemma ascending_strongly (data : list PriceDateEntry) :
  ascending data -> StronglySorted (fun a b => dt_le (fst a) (fst b)) data.
Proof.
  apply Sorted_StronglySorted. intros a b c. apply dt_le_trans.
Qed.

(** In ascending data whose day numbers tell the dates apart, the dates
    change exactly at the day boundaries. *)
Lemma distinct_days_boundaries (rest : list PriceDateEntry) :
  forall a,
  StronglySorted (fun a b => dt_le (fst a) (fst b)) (a :: rest) ->
  day_numbers_tell (a :: rest) ->
  distinct_days (a :: rest) = S (boundaries (Some (fst a)) rest).
Proof.
  induction rest as [| b rest IH]; intros a St Tell; [reflexivity |].
  apply StronglySorted_inv in St as [Sb Fa].
  destruct Tell as [Tab Tb].
  specialize (IH b Sb Tb).
  assert (Far : forall c, In c (b :: rest) ->
            date_of (fst c) = date_of (fst a) -> day (fst a) = day (fst b)).
  { intros c Inc Ec. rewrite Forall_forall in Fa.
    assert (Hab : dt_le (fst a) (fst b)) by (apply Fa; left; reflexivity).
    assert (Hbc : dt_le (fst b) (fst c)).
    { destruct Inc as [<- | Inc]; [unfold dt_le; lia |].
      apply StronglySorted_inv in Sb as [_ Fb].
      rewrite Forall_forall in Fb. apply Fb. exact Inc. }
    symmetry in Ec. pose proof (date_of_between _ _ _ Hab Hbc Ec) as E.
    unfold date_of in E. injection E as _ _ Ed. exact Ed. }
  unfold distinct_days in *. cbn [map] in IH |- *.
  assert (Edl : exists dl, dl = map (fun e : PriceDateEntry => date_of (fst e)) (b :: rest)
                 /\ dl = date_of (fst b) :: map (fun e => date_of (fst e)) rest)
    by (eexists; split; reflexivity).
  destruct Edl as (dl & Edl & Edl'). rewrite <- Edl' in IH |- *.
  cbn [nodup]. destruct b as [db pb]. cbn [boundaries is_boundary fst] in *.
  destruct (in_dec date_eq_dec (date_of (fst a)) dl) as [In | Out].
  - rewrite Edl in In. apply in_map_iff in In as (c & Ec & Inc).
    rewrite (Far c Inc Ec), Z.eqb_refl. exact IH.
  - destruct (Z.eqb_spec (day (fst a)) (day db)) as [E | NE].
    + exfalso. apply Out. rewrite Edl'. left. symmetry. apply Tab. exact E.
    + cbn [List.length]. rewrite IH. reflexivity.
Qed.

(** Whatever the order of the timestamps, a non-empty input gives one
    record per day boundary and the trailing one. *)
Lemma records_per_boundary (data : list PriceDateEntry) :
  data <> [] ->
  (exists ys s, act Schema1.init data = (ys, Ok s) /\
     List.length ys = (boundaries None data + 1)%nat) /\
  (exists ys s, act Schema2.init data = (ys, Ok s) /\
     List.length ys = (boundaries None data + 1)%nat).
Proof.
  intros N. split.
  - destruct (act_ok (Inv := fun _ => True) data Schema1.init Logic.I N)
      as (ys & s & r & s' & _ & _ & Ea & Ly).
    exists (ys ++ [r]), s'. split; [exact Ea |].
    rewrite length_app, Ly. reflexivity.
  - destruct (act_ok (Inv := numbers) data Schema2.init (Forall_nil _) N)
      as (ys & s & r & s' & _ & _ & Ea & Ly).
    exists (ys ++ [r]), s'. split; [exact Ea |].
    rewrite length_app, Ly. reflexivity.
Qed.

(** C2, as stated, fails: two samples one month apart on the same day
    number are ascending and span two calendar days, yet no boundary is
    seen between them and two records come out, not three. *)
Lemma month_apart_emits_two :
  let data := [(mkDatetime 2020 1 15 9 0 0, 100%Q);
               (mkDatetime 2020 2 15 9 0 0, 110%Q)] in
  data <> [] /\ ascending data /\ distinct_days data = 2%nat /\
  List.length (fst (act Schema1.init data)) = 2%nat /\
  List.length (fst (act Schema2.init data)) = 2%nat.
Proof.
  cbv zeta. split; [discriminate |].
  split; [repeat constructor; unfold dt_le; simpl; lia |].
  repeat split; reflexivity.
Qed.

(** C2, amended: for every non-empty ascending sample sequence in which
    consecutive samples with the same day-of-month number lie on the same
    calendar date, and whose timestamps span D distinct calendar days,
    [act] returns and emits exactly D + 1 records: with the Trend strategy
    whatever the prices, and with the Dispersion strategy for prices in
    range, for which its statistics do not overflow. *)
Theorem records_per_day (data : list PriceDateEntry) :
  data <> [] -> ascending data -> day_numbers_tell data ->
  (exists ys s, act Schema1.init data = (ys, Ok s) /\
     List.length ys = (distinct_days data + 1)%nat) /\
  (prices_in_range data ->
   exists ys s, act Schema2.init data = (ys, Ok s) /\
     List.length ys = (distinct_days data + 1)%nat).
Proof.
  intros N Asc Tell.
  assert (D : distinct_days data = boundaries None data).
  { destruct data as [| [dt p] rest]; [contradiction |].
    rewrite (distinct_days_boundaries rest _ (ascending_strongly _ Asc) Tell).
    reflexivity. }
  rewrite D. destruct (records_per_boundary data N) as [T Dp].
  split; [exact T | intros _; exact Dp].
Qed.

Lemma records_per_day_witness :
  let data := [(mkDatetime 2020 1 31 22 0 0, 100%Q);
               (mkDatetime 2020 1 31 23 0 0, 110%Q);
               (mkDatetime 2020 2 1 0 0 0, 90%Q)] in
  data <> [] /\ ascending data /\ day_numbers_tell data /\
  prices_in_range data /\
  (exists ys s, act Schema1.init data = (ys, Ok s) /\
     List.length ys = (distinct_days data + 1)%nat) /\
  (exists ys s, act Schema2.init data = (ys, Ok s) /\
     List.length ys = (distinct_days data + 1)%nat).
Proof.
  cbv zeta.
  assert (N : [(mkDatetime 2020 1 31 22 0 0, 100%Q);
               (mkDatetime 2020 1 31 23 0 0, 110%Q);
               (mkDatetime 2020 2 1 0 0 0, 90%Q)] <> []) by discriminate.
  assert (A : ascending [(mkDatetime 2020 1 31 22 0 0, 100%Q);
                         (mkDatetime 2020 1 31 23 0 0, 110%Q);
                         (mkDatetime 2020 2 1 0 0 0, 90%Q)]).
  { repeat constructor; unfold dt_le; simpl; lia. }
  assert (T : day_numbers_tell [(mkDatetime 2020 1 31 22 0 0, 100%Q);
                                (mkDatetime 2020 1 31 23 0 0, 110%Q);
                                (mkDatetime 2020 2 1 0 0 0, 90%Q)]).
  { simpl. repeat split; try reflexivity. intros E; discriminate E. }
  assert (P : prices_in_range [(mkDatetime 2020 1 31 22 0 0, 100%Q);
                               (mkDatetime 2020 1 31 23 0 0, 110%Q);
                               (mkDatetime 2020 2 1 0 0 0, 90%Q)]).
  { repeat constructor; vm_compute; discriminate. }
  split; [exact N |]. split; [exact A |]. split; [exact T |]. split; [exact P |].
  destruct (records_per_day _ N A T) as [Tr Dp].
  split; [exact Tr | exact (Dp P)].
Defined.

(** ** C3: the empty input *)

(** C3: on the empty sequence the loop body never runs, the trailing
    hourly update happens (the Dispersion strategy collects [None]), and
    the trailing render then raises [AttributeError] on the absent current
    timestamp: no record is emitted, with either strategy. *)
Theorem empty_input_raises :
  act_loop Schema1.init [] = ([], Ok Schema1.init) /\
  act_loop Schema2.init [] = ([], Ok Schema2.init) /\
  Schema2.vals (fields (Schema2.hourly_update Schema2.init)) = [None] /\
  act Schema1.init [] = ([], Raise AttributeError) /\
  act Schema2.init [] = ([], Raise AttributeError).
Proof. repeat split; reflexivity. Qed.

(** ** C4: the volatility alert *)

Lemma Qltb_lt (x y : Q) : Qltb x y = true <-> (x < y)%Q.
Proof.
  unfold Qltb. rewrite negb_true_iff, <- not_true_iff_false, Qle_bool_iff.
  split; [apply Qnot_le_lt | apply Qlt_not_le].
Qed.

(** Deciding on the squares is the chained comparison of the source. *)
Lemma within_two_iff (std_dev : root) (d : Q) :
  within_two std_dev d = true <-> within_two_R std_dev d.
Proof.
  unfold within_two, within_two_R. destruct std_dev as [v]; cbn [radicand].
  rewrite Qltb_lt.
  assert (E : (d * d < 4 * v)%Q <-> (Q2R d * Q2R d < 4 * Q2R v)%R).
  { replace 4%R with (Q2R 4) by (unfold Q2R; simpl; lra).
    rewrite <- !Q2R_mult. split; [apply Qlt_Rlt | apply Rlt_Qlt]. }
  rewrite E. clear E. set (D := Q2R d). set (V := Q2R v).
  destruct (Rle_lt_dec 0 V) as [Pos | Neg].
  - pose proof (sqrt_pos V) as Sp. pose proof (sqrt_sqrt V Pos) as Ss.
    set (s := sqrt V) in *. split; intros Hc; [split |]; nra.
  - rewrite (sqrt_neg_0 V) by lra. split; intros Hc; nra.
Qed.





(** ** C5: the record of a day boundary *)

Lemma Qltb_up (p o : Q) : Qltb 0 (p - o) = true <-> (o < p)%Q.
Proof. rewrite Qltb_lt. split; intros; lra. Qed.

Lemma Qltb_down (p o : Q) : Qltb (p - o) 0 = true <-> (p < o)%Q.
Proof. rewrite Qltb_lt. split; intros; lra. Qed.

Lemma truthy_false (p o : Q) : truthy (p - o) = false <-> (p == o)%Q.
Proof.
  unfold truthy. rewrite negb_false_iff, Qeq_bool_iff. split; intros; lra.
Qed.

(** The sign of the difference is the order of the prices. *)
Lemma direction_by_order (p o : Q) :
  (if Qltb 0 (p - o) then "up" else if Qltb (p - o) 0 then "down" else "same")%string
  = (if Qltb o p then "up" else if Qltb p o then "down" else "same")%string.
Proof.
  pose proof (Qltb_up p o) as Up. pose proof (Qltb_down p o) as Down.
  pose proof (Qltb_lt o p) as Lt1. pose proof (Qltb_lt p o) as Lt2.
  destruct (Qltb 0 (p - o)), (Qltb (p - o) 0), (Qltb o p), (Qltb p o);
    try reflexivity; exfalso;
    repeat match goal with
           | H : true = true <-> _ |- _ => destruct H as [H _]; specialize (H eq_refl)
           | H : false = true <-> _ |- _ =>
               let H' := fresh in
               assert (H' : ~ _) by (intros H'; apply H in H'; discriminate H');
               clear H
           end;
    lra.
Qed.

Lemma Schema1_render_direction (self : Schema1.t) (r : record) (s : Schema1.t)
    (p o : Q) :
  Schema1.output_format self = Ok (r, s) ->
  curr_val self = Some p -> prev_day_val self = Some o ->
  get "direction" r =
  Some (VStr (if Qltb 0 (p - o) then "up"
              else if Qltb (p - o) 0 then "down" else "same")).
Proof.
  destruct self as [cv cd pv pd pdv [mn mx]]; simpl. intros E -> ->. revert E.
  unfold Schema1.output_format, Schema1.direction, Schema1.change,
    Schema1.day_of_week, Schema1.high_since_start, Schema1.low_since_start,
    Schema1.set_max, Schema1.set_min, set_fields; simpl.
  destruct cd as [cd |]; simpl; [| discriminate].
  destruct mx as [mx |], mn as [mn |]; simpl;
    repeat match goal with
           | |- context [if Qltb ?a ?b then _ else _] => destruct (Qltb a b); simpl
           end;
    intros E; injection E as <- _; reflexivity.
Qed.

(** Direction and change of a render, by the order of the current price
    and the start-of-day price. *)
Lemma Schema1_render_compare (self : Schema1.t) (r : record) (s : Schema1.t) (p : Q) :
  Schema1.output_format self = Ok (r, s) -> curr_val self = Some p ->
  match prev_day_val self with
  | None => get "direction" r = Some VNone /\ get "change" r = Some VNone
  | Some o =>
      get "direction" r =
        Some (VStr (if Qltb o p then "up" else if Qltb p o then "down" else "same")) /\
      (get "change" r = Some VNone <-> (p == o)%Q)
  end.
Proof.
  intros E Cv. pose proof (Schema1_render_change _ _ _ p E Cv) as Ch.
  destruct (prev_day_val self) as [o |] eqn:Pd.
  - split.
    + rewrite (Schema1_render_direction _ _ _ p o E Cv Pd).
      rewrite direction_by_order. reflexivity.
    + rewrite Ch. cbn [option_map Schema1.change_item].
      pose proof (truthy_false p o) as Z.
      destruct (truthy (p - o)).
      * split; [discriminate |]. intros Eq. apply Z in Eq. discriminate Eq.
      * split; [intros _; apply Z; reflexivity | reflexivity].
  - split; [| exact Ch]. revert E.
    destruct self as [cv cd pv pd pdv [mn mx]]; simpl in *. subst cv pdv.
    unfold Schema1.output_format, Schema1.direction, Schema1.change,
      Schema1.day_of_week, Schema1.high_since_start, Schema1.low_since_start,
      Schema1.set_max, Schema1.set_min, set_fields; simpl.
    destruct cd as [cd |]; simpl; [| discriminate].
    destruct mx as [mx |], mn as [mn |]; simpl;
      repeat match goal with
             | |- context [if Qltb ?a ?b then _ else _] => destruct (Qltb a b); simpl
             end;
      intros E; injection E as <- _; reflexivity.
Qed.

(** C5: when [line] is a day boundary after the samples [seen], the record
    emitted for it is the render of the object the loop had reached on
    [seen], with only the current sample replaced by [line].  The subclass
    fields are those of the end of the previous iteration (the hourly
    update for [line] has not been applied and the day-reset hook has not
    run) and the start-of-day price is still that of the previous day.  In
    the Trend strategy direction and change compare the new price with
    the previous day's opening price (and are null when [line] is the first
    sample).  In the Dispersion strategy the statistics are computed from
    the previous day's samples [today None [] seen]; when they return, the
    object is unchanged and the record is emitted, and when they raise,
    [act] raises at that point, with no record for [line]. *)
Theorem boundary_record_state (seen : list PriceDateEntry)
    (line : PriceDateEntry) (rest : list PriceDateEntry) :
  is_boundary (option_map fst (last_entry seen)) (fst line) = true ->
  (exists ys s r s_r ys' res,
     act_loop Schema1.init seen = (ys, Ok s) /\
     Schema1.output_format (set_curr s line) = Ok (r, s_r) /\
     act Schema1.init (seen ++ line :: rest) = (ys ++ r :: ys', res) /\
     fields (set_curr s line) = fields s /\
     prev_day_val (set_curr s line) = day_open None None seen /\
     match day_open None None seen with
     | None => get "direction" r = Some VNone /\ get "change" r = Some VNone
     | Some o =>
         get "direction" r =
           Some (VStr (if Qltb o (snd line) then "up"
                       else if Qltb (snd line) o then "down" else "same")) /\
         (get "change" r = Some VNone <-> (snd line == o)%Q)
     end) /\
  (forall ys s,
     act_loop Schema2.init seen = (ys, Ok s) ->
     Schema2.vals (fields (set_curr s line)) = map Some (today None [] seen) /\
     prev_day_val (set_curr s line) = day_open None None seen /\
     match Schema2.output_format (set_curr s line) with
     | Ok (r, s_r) =>
         s_r = set_curr s line /\
         exists ys' res,
           act Schema2.init (seen ++ line :: rest) = (ys ++ r :: ys', res)
     | Raise e => act Schema2.init (seen ++ line :: rest) = (ys, Raise e)
     end).
Proof.
  intros B. split.
  - destruct (boundary_render (Inv := fun _ => True) (Schema1.mkExtra None None)
                seen line rest Logic.I B)
      as (ys & s & r & s_r & ys' & res & E & Er & Ea & Pd & _).
    exists ys, s, r, s_r, ys', res.
    split; [exact E |]. split; [exact Er |]. split; [exact Ea |].
    split; [reflexivity |]. split; [exact Pd |].
    pose proof (Schema1_render_compare _ _ _ (snd line) Er eq_refl) as C.
    cbn [prev_day_val set_curr] in C. rewrite Pd in C. exact C.
  - intros ys s E.
    destruct (act_loop_ok (Inv := numbers) seen Schema2.init (Forall_nil _))
      as (ys1 & s1 & E1 & _ & _ & Pd & La).
    destruct (Schema2_act_loop seen Schema2.init [] eq_refl) as (ys0 & s0 & E0 & V).
    rewrite E in E0, E1. injection E0 as <- <-. injection E1 as <- <-.
    split; [exact V |]. split; [exact Pd |].
    assert (P : prev_date s = option_map fst (last_entry seen)).
    { destruct (last_entry seen) as [e |].
      - destruct La as (_ & _ & -> & _). reflexivity.
      - subst s. reflexivity. }
    rewrite <- P in B.
    rewrite act_app, E, act_cons, (act_body_boundary _ _ B).
    change (@output_format _ _ Schema2.hooks) with Schema2.output_format.
    destruct (Schema2.output_format (set_curr s line)) as [[r s_r] | e] eqn:Er.
    + split; [exact (Schema2_output_format_pure _ _ _ Er) |].
      cbv beta iota zeta.
      match goal with
      | |- context [act ?s0 rest] => destruct (act s0 rest) as [ys' res]
      end.
      exists ys', res. reflexivity.
    + rewrite app_nil_r. reflexivity.
Qed.

Lemma boundary_record_state_witness :
  let seen := [(mkDatetime 2020 1 15 9 0 0, 100%Q);
               (mkDatetime 2020 1 15 10 0 0, 110%Q)] in
  let line := (mkDatetime 2020 1 16 9 0 0, 90%Q) in
  let rest := [(mkDatetime 2020 1 16 10 0 0, 95%Q)] in
  is_boundary (option_map fst (last_entry seen)) (fst line) = true /\
  (exists ys s r s_r ys' res,
     act_loop Schema1.init seen = (ys, Ok s) /\
     Schema1.output_format (set_curr s line) = Ok (r, s_r) /\
     act Schema1.init (seen ++ line :: rest) = (ys ++ r :: ys', res) /\
     fields (set_curr s line) = fields s /\
     prev_day_val (set_curr s line) = day_open None None seen /\
     match day_open None None seen with
     | None => get "direction" r = Some VNone /\ get "change" r = Some VNone
     | Some o =>
         get "direction" r =
           Some (VStr (if Qltb o (snd line) then "up"
                       else if Qltb (snd line) o then "down" else "same")) /\
         (get "change" r = Some VNone <-> (snd line == o)%Q)
     end) /\
  (exists ys s,
     act_loop Schema2.init seen = (ys, Ok s) /\
     Schema2.vals (fields (set_curr s line)) = map Some (today None [] seen) /\
     prev_day_val (set_curr s line) = day_open None None seen /\
     match Schema2.output_format (set_curr s line) with
     | Ok (r, s_r) =>
         s_r = set_curr s line /\
         exists ys' res,
           act Schema2.init (seen ++ line :: rest) = (ys ++ r :: ys', res)
     | Raise e => act Schema2.init (seen ++ line :: rest) = (ys, Raise e)
     end).
Proof.
  cbv zeta.
  destruct (boundary_record_state
              [(mkDatetime 2020 1 15 9 0 0, 100%Q);
               (mkDatetime 2020 1 15 10 0 0, 110%Q)]
              (mkDatetime 2020 1 16 9 0 0, 90%Q)
              [(mkDatetime 2020 1 16 10 0 0, 95%Q)] eq_refl) as [T D].
  split; [reflexivity |]. split; [exact T |].
  do 2 eexists. split; [reflexivity |]. apply D. reflexivity.
Defined.

(** ** C6: the change item of a Trend record *)

(** The item is null for an absent change and for a change of zero, and a
    formatted string otherwise. *)
Lemma change_item_null (c : option Q) :
  Schema1.change_item c = VNone <-> c = None \/ exists q, c = Some q /\ (q == 0)%Q.
Proof.
  destruct c as [q |]; simpl; [| split; auto].
  unfold truthy. destruct (Qeq_bool q 0) eqn:E; simpl.
  - apply Qeq_bool_iff in E. split; [| reflexivity].
    intros _. right. exists q. split; [reflexivity | exact E].
  - split; [discriminate |]. intros [F | (q' & Eq & Z)]; [discriminate |].
    injection Eq as <-. apply Qeq_bool_iff in Z. congruence.
Qed.

(** C6: when the last price equals the price the day opened at, the
    trailing Trend record is rendered with [change] returning [0.0], not
    [None]; its direction is ["same"], yet its ["change"] item is null
    instead of ["0.00"]. *)
Theorem zero_change_is_null :
  let data := [(mkDatetime 2020 1 15 9 0 0, 100%Q);
               (mkDatetime 2020 1 15 10 0 0, 100%Q)] in
  exists ys s r s',
    act_loop Schema1.init data = (ys, Ok s) /\
    act Schema1.init data = (ys ++ [r], Ok s') /\
    Schema1.output_format (hourly_update s) = Ok (r, s') /\
    Schema1.change (hourly_update s) = Ok (Some (100 - 100)%Q) /\
    get "direction" r = Some (VStr "same") /\
    get "change" r = Some VNone /\
    format_2f (100 - 100) = "0.00"%string.
Proof.
  cbv zeta. do 4 eexists. repeat split; reflexivity.
Qed.

(** ** C7: the trailing hourly update *)




(** ** C8: the base fields while the data are read *)

Section Invariant.
Context {X R : Type} {H : Hooks X R} {Inv : X -> Prop} {L : Lawful H Inv}.

(** The object reached from a fresh one when [seen] has been read: the
    previous sample and the start-of-day price are absent exactly when
    nothing has been read. *)
Lemma fresh_invariant (x : X) (seen rest : list PriceDateEntry) :
  Inv x ->
  exists ys s,
    act_loop (fresh x) seen = (ys, Ok s) /\
    act_loop (fresh x) (seen ++ rest) =
      (let (ys', res) := act_loop s rest in (ys ++ ys', res)) /\
    (prev_date s = None <-> seen = []) /\
    (prev_val s = None <-> seen = []) /\
    (prev_day_val s = None <-> seen = []).
Proof.
  intros I.
  destruct (act_loop_ok seen (fresh x) I) as (ys & s & E & _ & _ & Pd & La).
  exists ys, s. split; [exact E |].
  split; [rewrite act_loop_app, E; reflexivity |].
  destruct (last_entry seen) as [e |] eqn:El.
  - destruct La as (_ & _ & Hd & Hv). rewrite Hd, Hv, Pd.
    destruct seen as [| [dt p] seen']; [discriminate El |].
    assert (day_open None None ((dt, p) :: seen') <> None)
      by (simpl; apply day_open_some; discriminate).
    repeat split; intros; try discriminate; contradiction.
  - apply last_entry_none in El. subst s seen. simpl. repeat split; auto.
Qed.

End Invariant.

(** C8: whatever part [seen] of the input has been read, in the object the
    loop has reached [prev_date] and [prev_val] are absent iff [seen] is
    empty, and [prev_day_val] is absent iff [seen] is empty, that is,
    before the first day boundary, which the first sample is.  With the
    Trend strategy the loop reaches such an object whatever the prices;
    with the Dispersion strategy the invariant holds of every object the
    loop reaches without raising, which it does for prices in range. *)
Theorem base_fields_invariant (seen rest : list PriceDateEntry) :
  (exists ys s,
      act_loop Schema1.init seen = (ys, Ok s) /\
      act_loop Schema1.init (seen ++ rest) =
        (let (ys', res) := act_loop s rest in (ys ++ ys', res)) /\
      (prev_date s = None <-> seen = []) /\
      (prev_val s = None <-> seen = []) /\
      (prev_day_val s = None <-> seen = [])) /\
  (forall ys s,
      act_loop Schema2.init seen = (ys, Ok s) ->
      act_loop Schema2.init (seen ++ rest) =
        (let (ys', res) := act_loop s rest in (ys ++ ys', res)) /\
      (prev_date s = None <-> seen = []) /\
      (prev_val s = None <-> seen = []) /\
      (prev_day_val s = None <-> seen = [])) /\
  (prices_in_range seen ->
   exists ys s, act_loop Schema2.init seen = (ys, Ok s)).
Proof.
  pose proof (fresh_invariant (Inv := numbers)
                (Schema2.mkExtra []) seen rest (Forall_nil _)) as D.
  change (fresh (Schema2.mkExtra [])) with Schema2.init in D.
  split; [| split].
  - exact (fresh_invariant (Inv := fun _ => True)
             (Schema1.mkExtra None None) seen rest Logic.I).
  - intros ys s E. destruct D as (ys0 & s0 & E0 & Rest).
    rewrite E in E0. injection E0 as <- <-. exact Rest.
  - intros _. destruct D as (ys0 & s0 & E0 & _). exists ys0, s0. exact E0.
Qed.

Lemma base_fields_invariant_witness :
  let seen := [(mkDatetime 2020 1 15 9 0 0, 100%Q);
               (mkDatetime 2020 1 15 10 0 0, 110%Q)] in
  let rest := [(mkDatetime 2020 1 16 9 0 0, 90%Q)] in
  prices_in_range seen /\
  exists ys s,
    act_loop Schema2.init seen = (ys, Ok s) /\
    act_loop Schema2.init (seen ++ rest) =
      (let (ys', res) := act_loop s rest in (ys ++ ys', res)) /\
    (prev_date s = None <-> seen = []) /\
    (prev_val s = None <-> seen = []) /\
    (prev_day_val s = None <-> seen = []).
Proof.
  cbv zeta.
  assert (P : prices_in_range [(mkDatetime 2020 1 15 9 0 0, 100%Q);
                               (mkDatetime 2020 1 15 10 0 0, 110%Q)]).
  { repeat constructor; vm_compute; discriminate. }
  split; [exact P |].
  destruct (base_fields_invariant
              [(mkDatetime 2020 1 15 9 0 0, 100%Q);
               (mkDatetime 2020 1 15 10 0 0, 110%Q)]
              [(mkDatetime 2020 1 16 9 0 0, 90%Q)]) as (_ & Inv2 & Ret).
  destruct (Ret P) as (ys & s & E).
  exists ys, s. split; [exact E |]. exact (Inv2 ys s E).
Defined.

(** ** C9: rendering a Trend record twice *)

(** C9: after two samples of one day, the second above the first, the
    object holds the first price as running maximum.  Rendering it returns
    a record with highSinceStart true and raises the maximum; rendering it
    again, with no sample in between, returns a different record, with
    highSinceStart false. *)
Theorem trend_render_not_idempotent :
  exists data ys s r1 s1 r2 s2,
    act_loop Schema1.init data = (ys, Ok s) /\
    Schema1.output_format s = Ok (r1, s1) /\
    Schema1.output_format s1 = Ok (r2, s2) /\
    r1 <> r2 /\
    get "highSinceStart" r1 = Some (VBool true) /\
    get "highSinceStart" r2 = Some (VBool false) /\
    Schema1._max_val (fields s) = Some 100%Q /\
    Schema1._max_val (fields s1) = Some 110%Q.
Proof.
  exists [(mkDatetime 2020 1 15 9 0 0, 100%Q); (mkDatetime 2020 1 15 10 0 0, 110%Q)].
  do 6 eexists.
  split; [reflexivity |]. split; [reflexivity |]. split; [reflexivity |].
  split; [intros E; discriminate E |]. repeat split; reflexivity.
Qed.

(** ** C10: rendering a Dispersion record twice *)




(** * Further properties *)

(** ** Records of the loop, for any subclass *)

Lemma day_open_keeps (P : option Q -> Prop) (data : list PriceDateEntry) :
  (forall p, P (Some p)) ->
  forall prev pdv, P pdv -> P (day_open prev pdv data).
Proof.
  intros Ps. induction data as [| [dt p] rest IH]; intros prev pdv Hp; simpl;
    [assumption |].
  apply IH. destruct (is_boundary prev dt); [apply Ps | assumption].
Qed.

Section Records.
Context {X R : Type} {H : Hooks X R} {Inv : X -> Prop} {L : Lawful H Inv}.
Variable Start : option Q -> Prop.
Variable P : R -> Prop.
Hypothesis Start_some : forall p, Start (Some p).
Hypothesis render_P :
  forall self r s,
    Inv (fields self) -> curr_date self <> None -> curr_val self <> None ->
    Start (prev_day_val self) ->
    output_format self = Ok (r, s) -> P r.

(** Every record the loop yields is a render the hypothesis covers. *)
Lemma act_loop_records (data : list PriceDateEntry) :
  forall self, Inv (fields self) -> Start (prev_day_val self) ->
  Forall P (fst (act_loop self data)).
Proof.
  induction data as [| line rest IH]; intros self I S; [constructor |].
  destruct (act_body_ok self line I) as (out & s & E & St & Is & _).
  destruct St as (_ & _ & _ & _ & Pd).
  assert (S' : Start (prev_day_val s)).
  { rewrite Pd. destruct (is_boundary _ _); [apply Start_some | exact S]. }
  specialize (IH s Is S'). simpl. rewrite E.
  destruct (act_loop s rest) as [ys res]. simpl in *.
  apply Forall_app. split; [| exact IH].
  destruct (is_boundary (prev_date self) (fst line)) eqn:B.
  - rewrite (act_body_boundary _ _ B) in E.
    destruct (output_format (set_curr self line)) as [[r s0] |] eqn:Er;
      [| discriminate].
    injection E as <- _. constructor; [| constructor].
    apply (render_P (set_curr self line) r s0); auto; discriminate.
  - rewrite (act_body_same_day _ _ B) in E. injection E as <- _. constructor.
Qed.

(** So is the trailing record. *)
Lemma act_records (data : list PriceDateEntry) (self : DailyPriceStats X) :
  Inv (fields self) -> Start (prev_day_val self) ->
  curr_date self <> None -> curr_val self <> None ->
  Forall P (fst (act self data)).
Proof.
  intros I S Cd Cv.
  pose proof (act_loop_records data self I S) as F.
  destruct (act_ready data self I Cd Cv)
    as (ys & s & r & s' & E & Er & Ea & _ & Is & Cd' & Cv' & Pd).
  rewrite E in F. rewrite Ea. simpl in *.
  apply Forall_app. split; [exact F |]. constructor; [| constructor].
  pose proof (hourly_update_inv s Is Cv') as Ih.
  destruct (hourly_update_fields s) as [x Ex].
  apply (render_P (hourly_update s) r s'); auto.
  - rewrite Ex. exact Cd'.
  - rewrite Ex. exact Cv'.
  - rewrite Ex. simpl. rewrite Pd. apply day_open_keeps; assumption.
Qed.

End Records.

(** ** The water marks of the Trend strategy *)

Lemma Qltb_ge (x y : Q) : Qltb x y = false <-> (y <= x)%Q.
Proof.
  unfold Qltb. rewrite negb_false_iff. apply Qle_bool_iff.
Qed.

(** The low mark never passes the high mark. *)
#[global] Instance Schema1_ordered : Lawful Schema1.hooks marks_ordered.
Proof.
  constructor; simpl; auto.
  - intros self. exists (fields self). destruct self; reflexivity.
  - intros self. exists (fields self). destruct self; reflexivity.
  - intros [cv cd pv pd pdv [mn mx]] I Hd Hv; unfold marks_ordered in I; simpl in *.
    destruct cd as [cd |]; [| contradiction].
    destruct cv as [cv |]; [| contradiction].
    unfold Schema1.output_format, Schema1.direction, Schema1.change,
      Schema1.day_of_week, Schema1.high_since_start, Schema1.low_since_start,
      Schema1.set_max, Schema1.set_min, set_fields, marks_ordered; simpl.
    destruct mn as [mn |], mx as [mx |]; try contradiction; simpl.
    + destruct pdv as [pdv |]; simpl;
        destruct (Qltb mx cv) eqn:Hh; simpl;
        destruct (Qltb cv mn) eqn:Hl; simpl;
        eexists; eexists; (split; [reflexivity | simpl]);
        try apply Qltb_lt in Hh; try apply Qltb_lt in Hl;
        try apply Qltb_ge in Hh; try apply Qltb_ge in Hl;
        try apply Qle_refl; try assumption;
        try (apply Qlt_le_weak; apply (Qle_lt_trans _ mx); assumption);
        try (apply Qlt_le_weak; apply (Qlt_le_trans _ mn); assumption).
    + destruct pdv as [pdv |]; simpl;
        eexists; eexists; (split; [reflexivity | simpl; apply Qle_refl]).
Qed.

Lemma Schema1_render_not_both (self : Schema1.t) (r : record) (s : Schema1.t) :
  marks_ordered (fields self) ->
  Schema1.output_format self = Ok (r, s) ->
  ~ (get "highSinceStart" r = Some (VBool true) /\
     get "lowSinceStart" r = Some (VBool true)).
Proof.
  destruct self as [cv cd pv pd pdv [mn mx]]; unfold marks_ordered; simpl.
  intros I E [Hi Lo]. revert E Hi Lo.
  unfold Schema1.output_format, Schema1.direction, Schema1.change,
    Schema1.day_of_week, Schema1.high_since_start, Schema1.low_since_start,
    Schema1.set_max, Schema1.set_min, set_fields; simpl.
  destruct cd as [cd |]; simpl; [| discriminate].
  destruct cv as [cv |]; simpl; [| discriminate].
  destruct mn as [mn |], mx as [mx |]; try contradiction; simpl.
  - destruct pdv as [pdv |]; simpl;
      destruct (Qltb mx cv) eqn:Hh; simpl;
      destruct (Qltb cv mn) eqn:Hl; simpl;
      intros E; injection E as <- _; simpl; intros Hi Lo;
      try discriminate Hi; try discriminate Lo;
      apply Qltb_lt in Hh; apply Qltb_lt in Hl;
      apply (Qlt_irrefl cv);
      (apply (Qlt_le_trans _ mn); [assumption |]);
      (apply (Qle_trans _ mx); [assumption | apply Qlt_le_weak; assumption]).
  - destruct pdv as [pdv |]; simpl;
      intros E; injection E as <- _; simpl; intros Hi; discriminate Hi.
Qed.

(** X1: no record of the Trend strategy reports a new high and a new low at
    once, whatever the input. *)
Theorem trend_high_low_exclusive (data : list PriceDateEntry) :
  Forall (fun r => ~ (get "highSinceStart" r = Some (VBool true) /\
                      get "lowSinceStart" r = Some (VBool true)))
         (fst (act Schema1.init data)).
Proof.
  destruct data as [| [dt p] rest]; [constructor |].
  rewrite act_cons, Schema1_first.
  set (s1 := mkStats _ _ _ _ _ _).
  pose proof (act_records (Inv := marks_ordered) (fun _ => True) _
                (fun _ => Logic.I)
                (fun self r s I _ _ _ E => Schema1_render_not_both self r s I E)
                rest s1) as F.
  destruct (act s1 rest) as [ys res]. simpl in *.
  constructor.
  - intros [Hi _]. discriminate Hi.
  - apply F; try discriminate; try exact Logic.I.
    unfold marks_ordered; simpl. apply Qle_refl.
Qed.

(** ** Which Trend records carry nulls *)

Lemma some_price_set (p : Q) : Some p <> None.
Proof. discriminate. Qed.

Lemma Schema1_render_present (self : Schema1.t) (r : record) (s : Schema1.t) :
  marks_set (fields self) -> prev_day_val self <> None ->
  Schema1.output_format self = Ok (r, s) ->
  (exists d, get "direction" r = Some (VStr d) /\
     (d = "up" \/ d = "down" \/ d = "same")%string) /\
  (exists b, get "highSinceStart" r = Some (VBool b)) /\
  (exists b, get "lowSinceStart" r = Some (VBool b)).
Proof.
  destruct self as [cv cd pv pd pdv [mn mx]]; simpl.
  intros [Hn Hx] Hp; simpl in *.
  destruct pdv as [pdv |]; [| contradiction].
  destruct mn as [mn |]; [| contradiction].
  destruct mx as [mx |]; [| contradiction].
  unfold Schema1.output_format, Schema1.direction, Schema1.change,
    Schema1.day_of_week, Schema1.high_since_start, Schema1.low_since_start,
    Schema1.set_max, Schema1.set_min, set_fields; simpl.
  destruct cd as [cd |]; simpl; [| discriminate].
  destruct cv as [cv |]; simpl; [| discriminate].
  destruct (Qltb mx cv); simpl; destruct (Qltb cv mn); simpl;
    intros E; injection E as <- _; simpl;
    (split; [| split; eexists; reflexivity]);
    eexists; (split; [reflexivity |]);
    destruct (Qltb 0 (cv - pdv)); auto; destruct (Qltb (cv - pdv) 0); auto.
Qed.

(** X2: for every non-empty input, the first Trend record is the only one
    with an absent direction or absent water-mark flags: every later record
    has direction "up", "down" or "same" and boolean highSinceStart and
    lowSinceStart. *)
Theorem trend_only_first_null (data : list PriceDateEntry) :
  data <> [] ->
  exists r1 rs s,
    act Schema1.init data = (r1 :: rs, Ok s) /\
    get "direction" r1 = Some VNone /\
    get "change" r1 = Some VNone /\
    get "highSinceStart" r1 = Some VNone /\
    get "lowSinceStart" r1 = Some VNone /\
    Forall (fun r =>
              (exists d, get "direction" r = Some (VStr d) /\
                 (d = "up" \/ d = "down" \/ d = "same")%string) /\
              (exists b, get "highSinceStart" r = Some (VBool b)) /\
              (exists b, get "lowSinceStart" r = Some (VBool b))) rs.
Proof.
  intros N. destruct data as [| [dt p] rest]; [contradiction |].
  rewrite act_cons, Schema1_first.
  set (s1 := mkStats _ _ _ _ _ _).
  assert (M : marks_set (fields s1)) by (split; simpl; discriminate).
  pose proof (act_records (Inv := marks_set) (fun o => o <> None) _
                some_price_set
                (fun self r s I _ _ S E => Schema1_render_present self r s I S E)
                rest s1) as F.
  destruct (act_ready (Inv := marks_set) rest s1 M)
    as (ys & s & r & s' & _ & _ & Ea & _); try (simpl; discriminate).
  rewrite Ea in *. simpl in F.
  eexists _, (ys ++ [r]), s'. split; [reflexivity |].
  repeat (split; [reflexivity |]).
  apply F; try assumption; simpl; discriminate.
Qed.

Lemma trend_only_first_null_witness :
  let data := [(mkDatetime 2020 1 15 9 0 0, 100%Q);
               (mkDatetime 2020 1 16 9 0 0, 110%Q)] in
  data <> [] /\
  exists r1 rs s,
    act Schema1.init data = (r1 :: rs, Ok s) /\
    get "direction" r1 = Some VNone /\
    get "change" r1 = Some VNone /\
    get "highSinceStart" r1 = Some VNone /\
    get "lowSinceStart" r1 = Some VNone /\
    Forall (fun r =>
              (exists d, get "direction" r = Some (VStr d) /\
                 (d = "up" \/ d = "down" \/ d = "same")%string) /\
              (exists b, get "highSinceStart" r = Some (VBool b)) /\
              (exists b, get "lowSinceStart" r = Some (VBool b))) rs.
Proof.
  cbv zeta. split; [discriminate |].
  apply (trend_only_first_null
           [(mkDatetime 2020 1 15 9 0 0, 100%Q); (mkDatetime 2020 1 16 9 0 0, 110%Q)]).
  discriminate.
Defined.

(** ** Direction and change of a Trend record *)

(** X3: in a Trend record rendered with the start-of-day price [o] set and
    current price [p], direction is "up" iff [o < p], "down" iff [p < o] and
    "same" iff [p == o]; the change item is null iff [p == o], and a string
    otherwise. *)
Theorem trend_direction_change (self : Schema1.t) (r : record) (s : Schema1.t)
    (p o : Q) :
  Schema1.output_format self = Ok (r, s) ->
  curr_val self = Some p -> prev_day_val self = Some o ->
  (get "direction" r = Some (VStr "up") <-> (o < p)%Q) /\
  (get "direction" r = Some (VStr "down") <-> (p < o)%Q) /\
  (get "direction" r = Some (VStr "same") <-> (p == o)%Q) /\
  (get "change" r = Some VNone <-> (p == o)%Q) /\
  (~ (p == o)%Q -> exists c, get "change" r = Some (VStr c)).
Proof.
  intros E Cv Pd.
  rewrite (Schema1_render_direction _ _ _ p o E Cv Pd).
  rewrite (Schema1_render_change _ _ _ p E Cv), Pd. simpl.
  pose proof (Qltb_up p o) as Up. pose proof (Qltb_down p o) as Down.
  pose proof (truthy_false p o) as Zero.
  destruct (Qltb 0 (p - o)) eqn:U, (Qltb (p - o) 0) eqn:D,
    (truthy (p - o)) eqn:T;
    repeat match goal with
           | H : true = true <-> _ |- _ => destruct H as [H _]; specialize (H eq_refl)
           | H : false = true <-> _ |- _ =>
               let H' := fresh in
               assert (H' : ~ _) by (intros H'; apply H in H'; discriminate H');
               clear H
           | H : false = false <-> _ |- _ => destruct H as [H _]; specialize (H eq_refl)
           | H : true = false <-> _ |- _ =>
               let H' := fresh in
               assert (H' : ~ _) by (intros H'; apply H in H'; discriminate H');
               clear H
           end;
    repeat split; intros;
      try discriminate; try reflexivity; try contradiction; try lra;
      try (eexists; reflexivity).
Qed.

Lemma trend_direction_change_witness :
  let self := mkStats (Some 90%Q) (Some (mkDatetime 2020 1 16 9 0 0)) None None
                (Some 100%Q) (Schema1.mkExtra None None) in
  exists r s,
    Schema1.output_format self = Ok (r, s) /\
    curr_val self = Some 90%Q /\ prev_day_val self = Some 100%Q /\
    (get "direction" r = Some (VStr "up") <-> (100 < 90)%Q) /\
    (get "direction" r = Some (VStr "down") <-> (90 < 100)%Q) /\
    (get "direction" r = Some (VStr "same") <-> (90 == 100)%Q) /\
    (get "change" r = Some VNone <-> (90 == 100)%Q) /\
    (~ (90 == 100)%Q -> exists c, get "change" r = Some (VStr c)).
Proof.
  cbv zeta. do 2 eexists. split; [reflexivity |].
  split; [reflexivity |]. split; [reflexivity |].
  eapply (trend_direction_change
           (mkStats (Some 90%Q) (Some (mkDatetime 2020 1 16 9 0 0)) None None
              (Some 100%Q) (Schema1.mkExtra None None)) _ _ 90%Q 100%Q);
    reflexivity.
Defined.

(** ** Which samples the records are stamped with *)

Section Stamps.
Context {X R : Type} {H : Hooks X R} {Inv : X -> Prop} {L : Lawful H Inv}.
Context {A : Type}.
Variable view : R -> A.
Variable of_sample : PriceDateEntry -> A.
Hypothesis render_view :
  forall self dt p r s,
    Inv (fields self) -> curr_date self = Some dt -> curr_val self = Some p ->
    output_format self = Ok (r, s) -> view r = of_sample (dt, p).

Lemma act_loop_views (data : list PriceDateEntry) :
  forall self, Inv (fields self) ->
  map view (fst (act_loop self data)) =
  map of_sample (boundary_samples (prev_date self) data).
Proof.
  induction data as [| [dt p] rest IH]; intros self I; [reflexivity |].
  destruct (act_body_ok self (dt, p) I) as (out & s & E & St & Is & _).
  destruct St as (_ & _ & Pd & _).
  specialize (IH s Is). simpl. rewrite E.
  destruct (act_loop s rest) as [ys res]. simpl in *.
  rewrite !map_app, IH, Pd. f_equal.
  destruct (is_boundary (prev_date self) dt) eqn:B.
  - rewrite (act_body_boundary self (dt, p) B) in E.
    destruct (output_format (set_curr self (dt, p))) as [[r s0] |] eqn:Er;
      [| discriminate].
    injection E as <- _. simpl. f_equal.
    apply (render_view (set_curr self (dt, p)) dt p r s0); auto.
  - rewrite (act_body_same_day self (dt, p) B) in E. injection E as <- _. reflexivity.
Qed.

Lemma act_views (data : list PriceDateEntry) (self : DailyPriceStats X) :
  Inv (fields self) -> data <> [] ->
  exists ys s e,
    act self data = (ys, Ok s) /\ last_entry data = Some e /\
    map view ys =
    map of_sample (boundary_samples (prev_date self) data ++ [e]).
Proof.
  intros I N.
  pose proof (act_loop_views data self I) as V.
  destruct (act_ok data self I N) as (ys & s & r & s' & E & Er & Ea & _).
  destruct (act_loop_ok data self I) as (ys0 & s0 & E0 & Is & _ & _ & La).
  rewrite E in E0, V. injection E0 as <- <-. simpl in V.
  destruct (last_entry data) as [[dt p] |] eqn:El;
    [| apply last_entry_none in El; contradiction].
  destruct La as (Cd & Cv & _). simpl in Cd, Cv.
  exists (ys ++ [r]), s', (dt, p). split; [exact Ea |]. split; [reflexivity |].
  rewrite !map_app, V. f_equal. simpl. f_equal.
  assert (Cv' : curr_val s <> None) by (rewrite Cv; discriminate).
  pose proof (hourly_update_inv s Is Cv') as Ih.
  destruct (hourly_update_fields s) as [x Ex].
  apply (render_view (hourly_update s) dt p r s'); auto; rewrite Ex; assumption.
Qed.

End Stamps.

(** The date and price items of a record. *)
Lemma Schema1_render_stamp (self : Schema1.t) (dt : datetime) (p : Q)
    (r : record) (s : Schema1.t) :
  curr_date self = Some dt -> curr_val self = Some p ->
  Schema1.output_format self = Ok (r, s) ->
  (get "date" r, get "price" r) =
  (Some (VStr (strftime_iso dt)), Some (VStr (format_2f p))).
Proof.
  destruct self as [cv cd pv pd pdv [mn mx]]; simpl. intros -> ->.
  unfold Schema1.output_format, Schema1.direction, Schema1.change,
    Schema1.day_of_week, Schema1.high_since_start, Schema1.low_since_start,
    Schema1.set_max, Schema1.set_min, set_fields; simpl.
  destruct pdv as [pdv |], mx as [mx |], mn as [mn |]; simpl;
    repeat match goal with
           | |- context [if Qltb ?a ?b then _ else _] => destruct (Qltb a b); simpl
           end;
    intros E; injection E as <- _; reflexivity.
Qed.

Lemma Schema2_render_stamp (self : Schema2.t) (dt : datetime) (p : Q)
    (r : record) (s : Schema2.t) :
  curr_date self = Some dt -> curr_val self = Some p ->
  Schema2.output_format self = Ok (r, s) ->
  (get "date" r, get "price" r) =
  (Some (VStr (strftime_iso dt)), Some (VStr (format_2f p))).
Proof.
  intros D P. unfold Schema2.output_format. rewrite D, P. simpl.
  destruct (Schema2.daily_average self) as [[avg s1] |] eqn:Ea; [| discriminate].
  apply daily_average_pure in Ea. subst s1. simpl.
  destruct (Schema2.daily_variance self) as [[var s2] |] eqn:Ev; [| discriminate].
  apply daily_variance_pure in Ev. subst s2. simpl.
  destruct (Schema2.volatility_alert self) as [[alert s3] |] eqn:Eb; [| discriminate].
  apply volatility_alert_pure in Eb. subst s3. simpl.
  intros E. injection E as <- _. reflexivity.
Qed.

(** X4: for every non-empty input, the records carry, in order, the date
    and the price of each sample at which a day boundary was seen (the
    first sample of each day, not the last of the day before), and the
    trailing record those of the last sample: with the Trend strategy
    whatever the prices, with the Dispersion strategy for prices in
    range. *)
Theorem records_stamped_with (data : list PriceDateEntry) :
  data <> [] ->
  let stamp := fun r : record => (get "date" r, get "price" r) in
  let of_sample := fun e : PriceDateEntry =>
    (Some (VStr (strftime_iso (fst e))), Some (VStr (format_2f (snd e)))) in
  exists e, last_entry data = Some e /\
    (exists ys s, act Schema1.init data = (ys, Ok s) /\
       map stamp ys = map of_sample (boundary_samples None data ++ [e])) /\
    (prices_in_range data ->
     exists ys s, act Schema2.init data = (ys, Ok s) /\
       map stamp ys = map of_sample (boundary_samples None data ++ [e])).
Proof.
  intros N stamp of_sample.
  destruct (act_views (H := Schema1.hooks) (Inv := fun _ => True) stamp of_sample
              (fun self dt p r s _ D P E => Schema1_render_stamp self dt p r s D P E)
              data Schema1.init Logic.I N) as (ys1 & s1 & e1 & E1 & L1 & V1).
  destruct (act_views (H := Schema2.hooks) (Inv := numbers) stamp of_sample
              (fun self dt p r s _ D P E => Schema2_render_stamp self dt p r s D P E)
              data Schema2.init (Forall_nil _) N) as (ys2 & s2 & e2 & E2 & L2 & V2).
  rewrite L1 in L2. injection L2 as <-.
  exists e1. split; [exact L1 |]. split.
  - exists ys1, s1. split; [exact E1 | exact V1].
  - intros _. exists ys2, s2. split; [exact E2 | exact V2].
Qed.

Lemma records_stamped_with_witness :
  let data := [(mkDatetime 2020 1 15 9 0 0, 100%Q);
               (mkDatetime 2020 1 15 10 0 0, 110%Q);
               (mkDatetime 2020 1 16 9 0 0, 90%Q)] in
  let stamp := fun r : record => (get "date" r, get "price" r) in
  let of_sample := fun e : PriceDateEntry =>
    (Some (VStr (strftime_iso (fst e))), Some (VStr (format_2f (snd e)))) in
  data <> [] /\ prices_in_range data /\
  exists e, last_entry data = Some e /\
    (exists ys s, act Schema1.init data = (ys, Ok s) /\
       map stamp ys = map of_sample (boundary_samples None data ++ [e])) /\
    (exists ys s, act Schema2.init data = (ys, Ok s) /\
       map stamp ys = map of_sample (boundary_samples None data ++ [e])).
Proof.
  cbv zeta.
  assert (N : [(mkDatetime 2020 1 15 9 0 0, 100%Q);
               (mkDatetime 2020 1 15 10 0 0, 110%Q);
               (mkDatetime 2020 1 16 9 0 0, 90%Q)] <> []) by discriminate.
  assert (P : prices_in_range [(mkDatetime 2020 1 15 9 0 0, 100%Q);
                               (mkDatetime 2020 1 15 10 0 0, 110%Q);
                               (mkDatetime 2020 1 16 9 0 0, 90%Q)]).
  { repeat constructor; vm_compute; discriminate. }
  split; [exact N |]. split; [exact P |].
  destruct (records_stamped_with _ N) as (e & L & T & D).
  exists e. split; [exact L |]. split; [exact T | exact (D P)].
Defined.

(** ** How many records *)

Lemma boundaries_le (data : list PriceDateEntry) :
  forall prev, (boundaries prev data <= List.length data)%nat.
Proof.
  induction data as [| [dt p] rest IH]; intros prev; simpl; [lia |].
  specialize (IH (Some dt)). destruct (is_boundary prev dt); lia.
Qed.

(** X5: for every non-empty input, [act] emits at least two records and at
    most one record per sample plus the trailing one: with the Trend
    strategy whatever the prices, with the Dispersion strategy for prices
    in range. *)
Theorem record_count_bounds (data : list PriceDateEntry) :
  data <> [] ->
  (exists ys s, act Schema1.init data = (ys, Ok s) /\
     (2 <= List.length ys <= List.length data + 1)%nat) /\
  (prices_in_range data ->
   exists ys s, act Schema2.init data = (ys, Ok s) /\
     (2 <= List.length ys <= List.length data + 1)%nat).
Proof.
  intros N.
  assert (B : (1 <= boundaries None data <= List.length data)%nat).
  { split; [| apply boundaries_le].
    destruct data as [| [dt p] rest]; [contradiction |]. simpl. lia. }
  destruct (records_per_boundary data N)
    as [(ys1 & s1 & E1 & L1) (ys2 & s2 & E2 & L2)].
  split; [exists ys1, s1 | intros _; exists ys2, s2];
    (split; [assumption | lia]).
Qed.

Lemma record_count_bounds_witness :
  let data := [(mkDatetime 2020 1 15 9 0 0, 100%Q);
               (mkDatetime 2020 1 15 10 0 0, 110%Q);
               (mkDatetime 2020 1 16 9 0 0, 90%Q)] in
  data <> [] /\ prices_in_range data /\
  (exists ys s, act Schema1.init data = (ys, Ok s) /\
     (2 <= List.length ys <= List.length data + 1)%nat) /\
  (exists ys s, act Schema2.init data = (ys, Ok s) /\
     (2 <= List.length ys <= List.length data + 1)%nat).
Proof.
  cbv zeta.
  assert (N : [(mkDatetime 2020 1 15 9 0 0, 100%Q);
               (mkDatetime 2020 1 15 10 0 0, 110%Q);
               (mkDatetime 2020 1 16 9 0 0, 90%Q)] <> []) by discriminate.
  assert (P : prices_in_range [(mkDatetime 2020 1 15 9 0 0, 100%Q);
                               (mkDatetime 2020 1 15 10 0 0, 110%Q);
                               (mkDatetime 2020 1 16 9 0 0, 90%Q)]).
  { repeat constructor; vm_compute; discriminate. }
  split; [exact N |]. split; [exact P |].
  destruct (record_count_bounds _ N) as [T D].
  split; [exact T | exact (D P)].
Defined.

(** ** Mean and variance of numbers *)

Lemma Qlen_cons (x : Q) (xs : list Q) : (Qlen (x :: xs) == Qlen xs + 1)%Q.
Proof.
  unfold Qlen. cbn [List.length]. rewrite Nat2Z.inj_succ. unfold Z.succ.
  rewrite inject_Z_plus. reflexivity.
Qed.

Lemma Qlen_nonneg (xs : list Q) : (0 <= Qlen xs)%Q.
Proof.
  unfold Qlen. change 0%Q with (inject_Z 0). rewrite <- Zle_Qle. lia.
Qed.

Lemma Qlen_pos (xs : list Q) : (1 <= List.length xs)%nat -> (1 <= Qlen xs)%Q.
Proof.
  intros N. unfold Qlen. change 1%Q with (inject_Z 1). rewrite <- Zle_Qle. lia.
Qed.

Lemma Qlen_two (xs : list Q) : (2 <= List.length xs)%nat -> (2 <= Qlen xs)%Q.
Proof.
  intros N. unfold Qlen. change 2%Q with (inject_Z 2). rewrite <- Zle_Qle. lia.
Qed.

Lemma Qsum_cons (x : Q) (xs : list Q) : Qsum (x :: xs) = (x + Qsum xs)%Q.
Proof. reflexivity. Qed.

Lemma Qsum_bounds (lo hi : Q) (xs : list Q) :
  Forall (fun x => lo <= x <= hi)%Q xs ->
  (lo * Qlen xs <= Qsum xs <= hi * Qlen xs)%Q.
Proof.
  induction 1 as [| x xs [Hl Hh] _ [IHl IHh]].
  - unfold Qlen, Qsum. simpl. split; ring_simplify; apply Qle_refl.
  - rewrite Qsum_cons, Qlen_cons. split; ring_simplify; lra.
Qed.

Lemma Qmean_bounds (lo hi : Q) (xs : list Q) :
  (1 <= List.length xs)%nat -> Forall (fun x => lo <= x <= hi)%Q xs ->
  (lo <= Qmean xs <= hi)%Q.
Proof.
  intros N F. destruct (Qsum_bounds lo hi xs F) as [Hl Hh].
  pose proof (Qlen_pos xs N) as Lp.
  assert (Lp' : (0 < Qlen xs)%Q) by lra.
  unfold Qmean. split.
  - apply Qle_shift_div_l; assumption.
  - apply Qle_shift_div_r; assumption.
Qed.

Lemma Qsquare_nonneg (y : Q) : (0 <= y * y)%Q.
Proof.
  unfold Qle, Qmult. simpl. nia.
Qed.

Lemma Qvariance_nonneg (xs : list Q) :
  (2 <= List.length xs)%nat -> (0 <= Qvariance xs)%Q.
Proof.
  intros N. unfold Qvariance. cbv zeta.
  pose proof (Qlen_two xs N) as Lp.
  apply Qle_shift_div_l; [lra |]. ring_simplify.
  generalize (Qmean xs). intros c. clear.
  induction xs as [| x xs IH]; [apply Qle_refl |].
  cbn [map]. rewrite Qsum_cons.
  pose proof (Qsquare_nonneg (x - c)). lra.
Qed.

(** ** What the Dispersion records are computed from *)

Lemma Schema2_act_body_rendered (self : Schema2.t) (xs : list Q)
    (line : PriceDateEntry) :
  Schema2.vals (fields self) = map Some xs ->
  exists s,
    act_body self line =
      Ok ((if is_boundary (prev_date self) (fst line)
           then [rendered (fst line) (snd line) xs] else []), s) /\
    curr_date s = Some (fst line) /\ curr_val s = Some (snd line) /\
    Schema2.vals (fields s) =
      map Some ((if is_boundary (prev_date self) (fst line) then [] else xs)
                ++ [snd line]).
Proof.
  intros V. destruct (is_boundary (prev_date self) (fst line)) eqn:B.
  - rewrite (act_body_boundary _ _ B).
    change (@output_format _ _ Schema2.hooks) with Schema2.output_format.
    rewrite (Schema2_output_format_numbers (set_curr self line) xs
               (fst line) (snd line) V eq_refl eq_refl).
    eexists. split; [reflexivity |]. repeat split; reflexivity.
  - rewrite (act_body_same_day _ _ B).
    eexists. split; [reflexivity |]. split; [reflexivity |].
    split; [reflexivity |]. simpl. rewrite V, map_app. reflexivity.
Qed.

Section Rendered.
Variable G : Q -> Prop.

Lemma Schema2_act_rendered (data : list PriceDateEntry) :
  forall (self : Schema2.t) (xs : list Q) (dt : datetime) (p : Q),
  Schema2.vals (fields self) = map Some xs -> Forall G xs ->
  curr_date self = Some dt -> curr_val self = Some p -> G p ->
  Forall (fun e => G (snd e)) data ->
  Forall (rendered_from G) (fst (act self data)).
Proof.
  induction data as [| [dt' p'] rest IH]; intros self xs dt p V Gx Cd Cv Gp Gd.
  - unfold act. cbn [act_loop].
    change (@output_format _ _ Schema2.hooks) with Schema2.output_format.
    change (@hourly_update _ _ Schema2.hooks) with Schema2.hourly_update.
    assert (V' : Schema2.vals (fields (Schema2.hourly_update self))
                 = map Some (xs ++ [p])).
    { simpl. rewrite V, Cv, map_app. reflexivity. }
    rewrite (Schema2_output_format_numbers _ _ dt p V' Cd Cv). simpl.
    constructor; [| constructor].
    exists dt, p, (xs ++ [p]). split; [reflexivity |]. split; [assumption |].
    apply Forall_app. split; [assumption |]. constructor; [assumption | constructor].
  - apply Forall_cons_iff in Gd as [Gp' Gd]. simpl in Gp'.
    rewrite act_cons.
    destruct (Schema2_act_body_rendered self xs (dt', p') V)
      as (s & E & Cd' & Cv' & V'). rewrite E.
    assert (Gx' : Forall G ((if is_boundary (prev_date self) (fst (dt', p'))
                             then [] else xs) ++ [p'])).
    { apply Forall_app. split; [destruct (is_boundary _ _); [constructor | assumption] |].
      constructor; [assumption | constructor]. }
    specialize (IH s _ dt' p' V' Gx' Cd' Cv' Gp' Gd).
    destruct (act s rest) as [ys res]. simpl in *.
    apply Forall_app. split; [| exact IH].
    destruct (is_boundary (prev_date self) dt'); constructor; [| constructor].
    exists dt', p', xs. auto.
Qed.

Lemma Schema2_init_rendered (data : list PriceDateEntry) :
  Forall (fun e => G (snd e)) data ->
  Forall (rendered_from G) (fst (act Schema2.init data)).
Proof.
  intros Gd. destruct data as [| [dt p] rest]; [constructor |].
  apply Forall_cons_iff in Gd as [Gp Gd]. simpl in Gp.
  rewrite act_cons, Schema2_first.
  set (s1 := mkStats _ _ _ _ _ _).
  pose proof (Schema2_act_rendered rest s1 [p] dt p eq_refl
                (Forall_cons _ Gp (Forall_nil _)) eq_refl eq_refl Gp Gd) as F.
  destruct (act s1 rest) as [ys res]. simpl in *.
  constructor; [| exact F].
  exists dt, p, []. split; [reflexivity |]. split; [assumption | constructor].
Qed.

End Rendered.

(** X6: whatever the input, every Dispersion record has a numeric
    dailyVariance that is not negative. *)
Theorem dispersion_variance_nonneg (data : list PriceDateEntry) :
  Forall (fun r => exists v, get "dailyVariance" r = Some (VNum v) /\ (0 <= v)%Q)
         (fst (act Schema2.init data)).
Proof.
  pose proof (Schema2_init_rendered (fun _ => True) data) as F.
  eapply Forall_impl; [| apply F; apply Forall_forall; intros; exact Logic.I].
  intros r (dt & p & ws & -> & _ & _). unfold rendered. simpl.
  eexists. split; [reflexivity |].
  destruct ws as [| a [| b ws]]; try apply Qle_refl.
  apply Qvariance_nonneg. simpl. lia.
Qed.

(** X7: when every price of the input lies between [lo] and [hi], every
    Dispersion record has a numeric dailyAverage between [lo] and [hi]. *)
Theorem dispersion_average_in_range (data : list PriceDateEntry) (lo hi : Q) :
  Forall (fun e => lo <= snd e <= hi)%Q data ->
  Forall (fun r => exists a, get "dailyAverage" r = Some (VNum a) /\
                             (lo <= a <= hi)%Q)
         (fst (act Schema2.init data)).
Proof.
  intros Gd.
  pose proof (Schema2_init_rendered (fun x => lo <= x <= hi)%Q data Gd) as F.
  eapply Forall_impl; [| exact F].
  intros r (dt & p & ws & -> & Gp & Gw). unfold rendered. simpl.
  eexists. split; [reflexivity |].
  destruct ws as [| a ws]; [exact Gp |].
  apply Qmean_bounds; [simpl; lia | exact Gw].
Qed.

Lemma dispersion_average_in_range_witness :
  let data := [(mkDatetime 2020 1 15 9 0 0, 100%Q);
               (mkDatetime 2020 1 15 10 0 0, 110%Q);
               (mkDatetime 2020 1 16 9 0 0, 90%Q)] in
  Forall (fun e => 90 <= snd e <= 110)%Q data /\
  Forall (fun r => exists a, get "dailyAverage" r = Some (VNum a) /\
                             (90 <= a <= 110)%Q)
         (fst (act Schema2.init data)).
Proof.
  cbv zeta.
  assert (F : Forall (fun e : PriceDateEntry => 90 <= snd e <= 110)%Q
                [(mkDatetime 2020 1 15 9 0 0, 100%Q);
                 (mkDatetime 2020 1 15 10 0 0, 110%Q);
                 (mkDatetime 2020 1 16 9 0 0, 90%Q)]).
  { repeat constructor; simpl; unfold Qle; simpl; lia. }
  split; [exact F |].
  exact (dispersion_average_in_range _ 90%Q 110%Q F).
Defined.

(** ** When the volatility alert can be raised *)

Lemma volatility_loop_short (test : list (option Q) -> result bool)
    (self : Schema2.t) (idx : list nat) :
  Forall (fun i => i < 2)%nat idx ->
  Schema2.volatility_loop test self idx = Ok (false, self).
Proof.
  induction 1 as [| i idx Hi _ IH]; simpl; [reflexivity |].
  pose proof (firstn_le_length i (Schema2.vals (fields self))).
  destruct (Nat.ltb_spec (List.length (firstn i (Schema2.vals (fields self)))) 2);
    [exact IH | lia].
Qed.

(** X8: with fewer than three collected samples, numbers or not, the
    volatility alert is false, and the object is left as it was. *)
Theorem alert_needs_three_samples (self : Schema2.t) :
  (List.length (Schema2.vals (fields self)) < 3)%nat ->
  Schema2.volatility_alert self = Ok (false, self).
Proof.
  intros Short. unfold Schema2.volatility_alert.
  apply volatility_loop_short. apply Forall_forall. intros i In.
  apply in_seq in In. lia.
Qed.

Lemma alert_needs_three_samples_witness :
  let self := set_fields Schema2.init (Schema2.mkExtra [Some 100%Q; None]) in
  (List.length (Schema2.vals (fields self)) < 3)%nat /\
  Schema2.volatility_alert self = Ok (false, self).
Proof.
  cbv zeta.
  assert (S : (List.length (Schema2.vals (fields
                 (set_fields Schema2.init (Schema2.mkExtra [Some 100%Q; None])))) < 3)%nat)
    by (simpl; lia).
  split; [exact S |]. exact (alert_needs_three_samples _ S).
Defined.

Lemma hit_app (xs ys : list Q) (i : nat) :
  (i <= List.length xs)%nat -> hit (xs ++ ys) i = hit xs i.
Proof.
  intros Le. unfold hit. rewrite firstn_app.
  replace (i - List.length xs)%nat with 0%nat by lia.
  cbn [firstn]. rewrite app_nil_r. reflexivity.
Qed.

Lemma existsb_hit_app (xs ys : list Q) (n : nat) :
  (n <= S (List.length xs))%nat ->
  existsb (hit (xs ++ ys)) (seq 0 n) = existsb (hit xs) (seq 0 n).
Proof.
  intros Le. apply eq_true_iff_eq. rewrite !existsb_exists.
  split; intros (i & In & Hit); exists i; (split; [exact In |]);
    apply in_seq in In; [rewrite <- (hit_app xs ys) | rewrite hit_app];
    try assumption; lia.
Qed.

Lemma volatility_alert_numbers (self : Schema2.t) (xs : list Q) :
  Schema2.vals (fields self) = map Some xs ->
  Schema2.volatility_alert self =
  Ok (existsb (hit xs) (seq 0 (List.length xs)), self).
Proof.
  intros V. unfold Schema2.volatility_alert.
  rewrite V, length_map. apply volatility_loop_spec. exact V.
Qed.

(** X9: the volatility alert does not look at the latest collected sample:
    two lists of collected numbers that differ in their last item only
    give the same alert. *)
Theorem alert_ignores_latest (self self' : Schema2.t) (xs : list Q) (y z : Q) :
  Schema2.vals (fields self) = map Some (xs ++ [y]) ->
  Schema2.vals (fields self') = map Some (xs ++ [z]) ->
  returned (Schema2.volatility_alert self) =
  returned (Schema2.volatility_alert self').
Proof.
  intros V V'.
  rewrite (volatility_alert_numbers _ _ V), (volatility_alert_numbers _ _ V').
  rewrite !length_app. cbn [List.length returned].
  rewrite !existsb_hit_app by lia. reflexivity.
Qed.

Lemma alert_ignores_latest_witness :
  let self := set_fields Schema2.init
                (Schema2.mkExtra (map Some ([0; 1; 0] ++ [5])%Q)) in
  let self' := set_fields Schema2.init
                 (Schema2.mkExtra (map Some ([0; 1; 0] ++ [1000])%Q)) in
  Schema2.vals (fields self) = map Some ([0; 1; 0] ++ [5])%Q /\
  Schema2.vals (fields self') = map Some ([0; 1; 0] ++ [1000])%Q /\
  returned (Schema2.volatility_alert self) =
  returned (Schema2.volatility_alert self').
Proof.
  cbv zeta. split; [reflexivity |]. split; [reflexivity |].
  apply (alert_ignores_latest _ _ [0; 1; 0]%Q 5%Q 1000%Q); reflexivity.
Defined.

(** X10: once the alert is true for the collected numbers, it stays true
    however many numbers are collected after them, and the object is left
    as it was. *)
Theorem alert_persists (self self' : Schema2.t) (xs ys : list Q) :
  Schema2.vals (fields self) = map Some xs ->
  Schema2.vals (fields self') = map Some (xs ++ ys) ->
  returned (Schema2.volatility_alert self) = Ok true ->
  Schema2.volatility_alert self' = Ok (true, self').
Proof.
  intros V V'.
  rewrite (volatility_alert_numbers _ _ V), (volatility_alert_numbers _ _ V').
  cbn [returned]. intros E. injection E as E. do 2 f_equal.
  apply existsb_exists in E as (i & In & Hit). apply existsb_exists.
  apply in_seq in In. exists i. split.
  - apply in_seq. rewrite length_app. lia.
  - rewrite hit_app by lia. exact Hit.
Qed.

Lemma alert_persists_witness :
  let self := set_fields Schema2.init (Schema2.mkExtra (map Some [0; 1; 0]%Q)) in
  let self' := set_fields Schema2.init
                 (Schema2.mkExtra (map Some ([0; 1; 0] ++ [1000; 2000])%Q)) in
  Schema2.vals (fields self) = map Some [0; 1; 0]%Q /\
  Schema2.vals (fields self') = map Some ([0; 1; 0] ++ [1000; 2000])%Q /\
  returned (Schema2.volatility_alert self) = Ok true /\
  Schema2.volatility_alert self' = Ok (true, self').
Proof.
  cbv zeta. split; [reflexivity |]. split; [reflexivity |].
  split; [vm_compute; reflexivity |].
  apply (alert_persists
           (set_fields Schema2.init (Schema2.mkExtra (map Some [0; 1; 0]%Q)))
           _ [0; 1; 0]%Q [1000; 2000]%Q); [reflexivity | reflexivity |].
  vm_compute. reflexivity.
Defined.

Lemma flat_mean (c : Q) (xs : list Q) :
  (1 <= List.length xs)%nat -> Forall (fun x => x == c)%Q xs ->
  (c <= Qmean xs <= c)%Q.
Proof.
  intros N F. apply Qmean_bounds; [exact N |].
  eapply Forall_impl; [| exact F]. intros x E. simpl in E. split; lra.
Qed.

Lemma flat_variance (c : Q) (xs : list Q) :
  (2 <= List.length xs)%nat -> Forall (fun x => x == c)%Q xs ->
  (Qvariance xs <= 0)%Q.
Proof.
  intros N F. unfold Qvariance. cbv zeta.
  pose proof (Qlen_two xs N) as Lp.
  destruct (flat_mean c xs ltac:(lia) F) as [Ml Mh].
  apply Qle_shift_div_r; [lra |]. ring_simplify.
  assert (Fs : Forall (fun y => 0 <= y <= 0)%Q
                 (map (fun x => (x - Qmean xs) * (x - Qmean xs))%Q xs)).
  { apply Forall_map. eapply Forall_impl; [| exact F].
    intros x E. simpl in E.
    assert (Z : (x - Qmean xs == 0)%Q) by lra.
    rewrite Z. split; lra. }
  destruct (Qsum_bounds 0 0 _ Fs) as [_ Hs]. lra.
Qed.

(** X11: when all collected numbers are equal, the volatility alert is
    false: a standard deviation of zero leaves no room strictly within two
    standard deviations.  The object is left as it was. *)
Theorem alert_flat_prices (self : Schema2.t) (xs : list Q) (c : Q) :
  Schema2.vals (fields self) = map Some xs ->
  Forall (fun x => x == c)%Q xs ->
  Schema2.volatility_alert self = Ok (false, self).
Proof.
  intros V F. rewrite (volatility_alert_numbers _ _ V). do 2 f_equal.
  apply not_true_iff_false. intros E.
  apply existsb_exists in E as (i & _ & Hit).
  unfold hit in Hit. apply andb_true_iff in Hit as [Len W].
  apply Nat.leb_le in Len. unfold within_two in W. cbn [radicand] in W.
  apply Qltb_lt in W.
  assert (Fi : Forall (fun x => x == c)%Q (firstn i xs)).
  { rewrite <- (firstn_skipn i xs) in F. apply Forall_app in F. apply F. }
  pose proof (flat_variance c _ Len Fi) as Hv.
  pose proof (Qsquare_nonneg (last (firstn i xs) 0 - Qmean (firstn i xs))%Q) as Hd.
  lra.
Qed.

Lemma alert_flat_prices_witness :
  let self := set_fields Schema2.init
                (Schema2.mkExtra (map Some [7; 7; 7; 7]%Q)) in
  Schema2.vals (fields self) = map Some [7; 7; 7; 7]%Q /\
  Forall (fun x => x == 7)%Q [7; 7; 7; 7]%Q /\
  Schema2.volatility_alert self = Ok (false, self).
Proof.
  cbv zeta.
  assert (F : Forall (fun x => x == 7)%Q [7; 7; 7; 7]%Q)
    by (repeat constructor).
  split; [reflexivity |]. split; [exact F |].
  apply (alert_flat_prices
           (set_fields Schema2.init (Schema2.mkExtra (map Some [7; 7; 7; 7]%Q)))
           [7; 7; 7; 7]%Q 7%Q); [reflexivity | exact F].
Defined.

(** ** The change of the trailing Trend record *)

(** X12: for every non-empty input, direction and change of the trailing
    Trend record compare the last price [p] with the price [o] at the
    latest day boundary: the direction is "up" when [o < p], "down" when
    [p < o] and "same" otherwise, and the change item is null exactly when
    [p == o]. *)
Theorem trend_trailing_change (data : list PriceDateEntry) :
  data <> [] ->
  exists ys s r s' e o,
    act_loop Schema1.init data = (ys, Ok s) /\
    act Schema1.init data = (ys ++ [r], Ok s') /\
    last_entry data = Some e /\ day_open None None data = Some o /\
    get "direction" r =
      Some (VStr (if Qltb o (snd e) then "up"
                  else if Qltb (snd e) o then "down" else "same")) /\
    (get "change" r = Some VNone <-> (snd e == o)%Q).
Proof.
  intros N.
  destruct (act_ok (Inv := fun _ => True) data Schema1.init Logic.I N)
    as (ys & s & r & s' & E & Er & Ea & _).
  destruct (act_loop_ok (Inv := fun _ => True) data Schema1.init Logic.I)
    as (ys0 & s0 & E0 & _ & _ & Pd & La).
  rewrite E in E0. injection E0 as <- <-.
  destruct (last_entry data) as [e |] eqn:El;
    [| apply last_entry_none in El; contradiction].
  destruct La as (_ & Cv & _).
  destruct (day_open None None data) as [o |] eqn:Eo.
  - change (Schema1.output_format s = Ok (r, s')) in Er.
    change (prev_day_val Schema1.init) with (@None Q) in Pd.
    change (prev_date Schema1.init) with (@None datetime) in Pd.
    rewrite Eo in Pd.
    exists ys, s, r, s', e, o.
    split; [exact E |]. split; [exact Ea |]. split; [reflexivity |].
    split; [reflexivity |].
    pose proof (Schema1_render_compare _ _ _ (snd e) Er Cv) as C.
    rewrite Pd in C. exact C.
  - exfalso. destruct data as [| [dt p] rest]; [contradiction |].
    simpl in Eo. revert Eo. apply day_open_some. discriminate.
Qed.

Lemma trend_trailing_change_witness :
  let data := [(mkDatetime 2020 1 15 9 0 0, 100%Q);
               (mkDatetime 2020 1 16 9 0 0, 90%Q);
               (mkDatetime 2020 1 16 10 0 0, 95%Q)] in
  data <> [] /\
  exists ys s r s' e o,
    act_loop Schema1.init data = (ys, Ok s) /\
    act Schema1.init data = (ys ++ [r], Ok s') /\
    last_entry data = Some e /\ day_open None None data = Some o /\
    get "direction" r =
      Some (VStr (if Qltb o (snd e) then "up"
                  else if Qltb (snd e) o then "down" else "same")) /\
    (get "change" r = Some VNone <-> (snd e == o)%Q).
Proof.
  cbv zeta. split; [discriminate |].
  apply (trend_trailing_change
           [(mkDatetime 2020 1 15 9 0 0, 100%Q);
            (mkDatetime 2020 1 16 9 0 0, 90%Q);
            (mkDatetime 2020 1 16 10 0 0, 95%Q)]).
  discriminate.
Defined.

(** ** The samples the Trend strategy does not see *)

(** The previous sample has no part in a Trend render. *)
Lemma Schema1_render_prev (self : Schema1.t) (d : option datetime) (v : option Q) :
  Schema1.output_format (set_prev self d v) =
  match Schema1.output_format self with
  | Ok (r, s) => Ok (r, set_prev s d v)
  | Raise e => Raise e
  end.
Proof.
  destruct self as [cv cd pv pd pdv [mn mx]].
  unfold Schema1.output_format, Schema1.direction, Schema1.change,
    Schema1.day_of_week, Schema1.high_since_start, Schema1.low_since_start,
    Schema1.set_max, Schema1.set_min, set_fields, set_prev; simpl.
  destruct cd as [cd |]; simpl; [| reflexivity].
  destruct cv as [cv |]; simpl;
    destruct pdv as [pdv |], mx as [mx |], mn as [mn |]; simpl;
    repeat match goal with
           | |- context [if Qltb ?a ?b then _ else _] => destruct (Qltb a b); simpl
           end;
    reflexivity.
Qed.

Lemma fst_act_cons {X R : Type} {H : Hooks X R} (self : DailyPriceStats X)
    (line : PriceDateEntry) (rest : list PriceDateEntry) :
  fst (act self (line :: rest)) =
  match act_body self line with
  | Raise _ => []
  | Ok (out, s) => out ++ fst (act s rest)
  end.
Proof.
  rewrite act_cons. destruct (act_body self line) as [[out s] |]; [| reflexivity].
  destruct (act s rest); reflexivity.
Qed.

(** At a day boundary two alike objects yield the same record and become
    the same object. *)
Lemma alike_boundary (a b : Schema1.t) (line : PriceDateEntry) :
  alike a b -> is_boundary (prev_date a) (fst line) = true ->
  exists r s, act_body a line = Ok ([r], s) /\ act_body b line = Ok ([r], s).
Proof.
  intros (Ef & Ep & Eb) B.
  assert (B' : is_boundary (prev_date b) (fst line) = true) by (rewrite <- Eb; exact B).
  rewrite (act_body_boundary a line B), (act_body_boundary b line B').
  change (@output_format _ _ Schema1.hooks) with Schema1.output_format.
  assert (Eq : set_curr b line
               = set_prev (set_curr a line) (prev_date b) (prev_val b)).
  { unfold set_curr, set_prev. simpl. rewrite Ef, Ep. reflexivity. }
  rewrite Eq, Schema1_render_prev.
  destruct (output_format_returns (Lawful := Schema1_lawful) (set_curr a line) Logic.I)
    as (r & x & Er & _); try discriminate.
  change (Schema1.output_format (set_curr a line)
          = Ok (r, set_fields (set_curr a line) x)) in Er.
  rewrite Er. exists r. eexists. split; reflexivity.
Qed.

(** Away from a day boundary they yield nothing and stay alike; they become
    the same object when their previous samples were the same. *)
Lemma alike_same_day (a b : Schema1.t) (line : PriceDateEntry) :
  alike a b -> is_boundary (prev_date a) (fst line) = false ->
  exists a1 b1,
    act_body a line = Ok ([], a1) /\ act_body b line = Ok ([], b1) /\
    a1 = b1 /\ prev_date a1 = Some (fst line) /\ alike a1 b.
Proof.
  intros (Ef & Ep & Eb) B.
  assert (B' : is_boundary (prev_date b) (fst line) = false) by (rewrite <- Eb; exact B).
  rewrite (act_body_same_day a line B), (act_body_same_day b line B').
  eexists _, _. split; [reflexivity |]. split; [reflexivity |].
  split; [| split; [reflexivity |]].
  - unfold finish, set_prev, set_curr. simpl. rewrite Ef, Ep. reflexivity.
  - split; [exact Ef |]. split; [exact Ep |]. intros dt. simpl.
    destruct (prev_date b) as [pb |]; [| discriminate B'].
    simpl in B'. apply negb_false_iff, Z.eqb_eq in B'. simpl. rewrite B'.
    reflexivity.
Qed.

Lemma alike_refl (a : Schema1.t) : alike a a.
Proof. repeat split. Qed.

Lemma skeleton_records (data : list PriceDateEntry) :
  forall a b : Schema1.t, alike a b -> (data = [] -> a = b) ->
  fst (act a data) = fst (act b (skeleton (prev_date a) data)).
Proof.
  induction data as [| [dt p] rest IH]; intros a b Al Nil.
  - rewrite (Nil eq_refl). reflexivity.
  - cbn [skeleton]. destruct (is_boundary (prev_date a) dt) eqn:B.
    + destruct (alike_boundary a b (dt, p) Al B) as (r & s & Ea & Eb).
      assert (Ps : prev_date s = Some dt).
      { destruct (act_body_ok (L := Schema1_lawful) a (dt, p) Logic.I)
          as (out & s0 & E0 & St & _).
        rewrite Ea in E0. injection E0 as _ <-. apply St. }
      rewrite !fst_act_cons, Ea, Eb. f_equal.
      rewrite <- Ps. apply IH; [apply alike_refl | reflexivity].
    + destruct (alike_same_day a b (dt, p) Al B)
        as (a1 & b1 & Ea & Eb & E1 & Pa & Al1).
      destruct rest as [| c rest'].
      * rewrite !fst_act_cons, Ea, Eb, E1. reflexivity.
      * rewrite fst_act_cons, Ea. cbn [app]. simpl in Pa. rewrite <- Pa.
        apply IH; [exact Al1 | discriminate].
Qed.

(** X13: the Trend records of an input are those of its skeleton, the
    samples at which a day boundary is seen and the last sample: every
    other sample, whatever its price, leaves all records as they are. *)
Theorem trend_sees_skeleton (data : list PriceDateEntry) :
  fst (act Schema1.init data) = fst (act Schema1.init (skeleton None data)).
Proof.
  apply (skeleton_records data Schema1.init Schema1.init (alike_refl _)).
  reflexivity.
Qed.

Example trend_sees_skeleton_ex :
  skeleton None [(mkDatetime 2020 1 15 9 0 0, 100%Q);
                 (mkDatetime 2020 1 15 10 0 0, 5000%Q);
                 (mkDatetime 2020 1 15 11 0 0, 1%Q);
                 (mkDatetime 2020 1 16 9 0 0, 90%Q);
                 (mkDatetime 2020 1 16 10 0 0, 7%Q);
                 (mkDatetime 2020 1 16 11 0 0, 95%Q)] =
  [(mkDatetime 2020 1 15 9 0 0, 100%Q);
   (mkDatetime 2020 1 16 9 0 0, 90%Q);
   (mkDatetime 2020 1 16 11 0 0, 95%Q)].
Proof. reflexivity. Qed.

(** ** The variance of equal numbers *)

(** X14: on two or more collected numbers that are all equal,
    [daily_variance] returns zero and leaves the object as it was. *)
Theorem dispersion_variance_flat (self : Schema2.t) (xs : list Q) (c : Q) :
  Schema2.vals (fields self) = map Some xs -> (2 <= List.length xs)%nat ->
  Forall (fun x => x == c)%Q xs ->
  exists v, Schema2.daily_variance self = Ok (v, self) /\ (v == 0)%Q.
Proof.
  intros V N F. unfold Schema2.daily_variance. rewrite V, length_map.
  destruct (Nat.ltb_spec (List.length xs) 2); [lia |].
  rewrite (variance_map_Some xs N). eexists. split; [reflexivity |].
  pose proof (flat_variance c xs N F). pose proof (Qvariance_nonneg xs N). lra.
Qed.

Lemma dispersion_variance_flat_witness :
  let self := set_fields Schema2.init (Schema2.mkExtra (map Some [7; 7; 7]%Q)) in
  Schema2.vals (fields self) = map Some [7; 7; 7]%Q /\
  (2 <= List.length [7; 7; 7]%Q)%nat /\
  Forall (fun x => x == 7)%Q [7; 7; 7]%Q /\
  exists v, Schema2.daily_variance self = Ok (v, self) /\ (v == 0)%Q.
Proof.
  cbv zeta.
  assert (N : (2 <= List.length [7; 7; 7]%Q)%nat) by (simpl; lia).
  assert (F : Forall (fun x => x == 7)%Q [7; 7; 7]%Q) by (repeat constructor).
  split; [reflexivity |]. split; [exact N |]. split; [exact F |].
  apply (dispersion_variance_flat
           (set_fields Schema2.init (Schema2.mkExtra (map Some [7; 7; 7]%Q)))
           [7; 7; 7]%Q 7%Q); [reflexivity | exact N | exact F].
Defined.

(** ** What the water-mark flags compare with *)

Section Marks.
Variable cmp : Q -> Q -> bool.
Hypothesis cmp_irrefl : forall p, cmp p p = false.
Hypothesis cmp_asym : forall q p, cmp q p = true -> cmp p q = false.
Hypothesis cmp_below :
  forall m q p, cmp m p = true -> cmp m q = false -> cmp q p = true.

(** A mark that is one of the prices seen and is passed by none of them
    decides like all of them. *)
Lemma mark_flags_beats_all (ps : list Q) :
  forall (seen : list Q) (m : Q),
  In m seen -> Forall (fun q => cmp m q = false) seen ->
  mark_flags cmp (Some m) ps = beats_all cmp seen ps.
Proof.
  induction ps as [| p ps IH]; intros seen m Hin Hall; [reflexivity |].
  cbn [mark_flags beats_all].
  destruct seen as [| q0 seen0]; [contradiction |].
  set (seen := q0 :: seen0) in *.
  destruct (cmp m p) eqn:C.
  - replace (forallb (fun q => cmp q p) seen) with true.
    + f_equal. apply IH; [apply in_or_app; right; left; reflexivity |].
      apply Forall_app. split.
      * apply Forall_forall. intros q Hq. apply cmp_asym.
        rewrite Forall_forall in Hall.
        destruct (cmp m q) eqn:Cq; [rewrite (Hall q Hq) in Cq; discriminate |].
        apply (cmp_below m q p C Cq).
      * constructor; [apply cmp_irrefl | constructor].
    + symmetry. apply forallb_forall. intros q Hq.
      rewrite Forall_forall in Hall. apply (cmp_below m q p C (Hall q Hq)).
  - replace (forallb (fun q => cmp q p) seen) with false.
    + f_equal. apply IH; [apply in_or_app; left; exact Hin |].
      apply Forall_app. split; [exact Hall |].
      constructor; [exact C | constructor].
    + symmetry. apply not_true_iff_false. intros F.
      rewrite forallb_forall in F. specialize (F m Hin). congruence.
Qed.

Lemma mark_flags_unset (ps : list Q) :
  mark_flags cmp None ps = beats_all cmp [] ps.
Proof.
  destruct ps as [| p ps]; [reflexivity |]. cbn [mark_flags beats_all app].
  f_equal. apply mark_flags_beats_all; [left; reflexivity |].
  constructor; [apply cmp_irrefl | constructor].
Qed.

End Marks.

Lemma Schema1_render_marks (self : Schema1.t) (r : record) (s : Schema1.t) (p : Q) :
  Schema1.output_format self = Ok (r, s) -> curr_val self = Some p ->
  [get "highSinceStart" r] =
    map Some (mark_flags (fun m q => Qltb m q) (Schema1._max_val (fields self)) [p]) /\
  [get "lowSinceStart" r] =
    map Some (mark_flags (fun m q => Qltb q m) (Schema1._min_val (fields self)) [p]) /\
  Schema1._max_val (fields s) =
    match Schema1._max_val (fields self) with
    | None => Some p
    | Some m => if Qltb m p then Some p else Some m
    end /\
  Schema1._min_val (fields s) =
    match Schema1._min_val (fields self) with
    | None => Some p
    | Some m => if Qltb p m then Some p else Some m
    end.
Proof.
  destruct self as [cv cd pv pd pdv [mn mx]]; simpl. intros E ->. revert E.
  unfold Schema1.output_format, Schema1.direction, Schema1.change,
    Schema1.day_of_week, Schema1.high_since_start, Schema1.low_since_start,
    Schema1.set_max, Schema1.set_min, set_fields; simpl.
  destruct cd as [cd |]; simpl; [| discriminate].
  destruct pdv as [pdv |], mx as [mx |], mn as [mn |]; simpl;
    repeat match goal with
           | |- context [if Qltb ?a ?b then _ else _] => destruct (Qltb a b); simpl
           end;
    intros E; injection E as <- <-; repeat split; reflexivity.
Qed.

Lemma last_cons_default {A : Type} (a d : A) (l : list A) :
  last (a :: l) d = last l a.
Proof.
  revert a d. induction l as [| b l IH]; intros a d; [reflexivity |].
  change (last (a :: b :: l) d) with (last (b :: l) d).
  rewrite (IH b d), (IH b a). reflexivity.
Qed.

Lemma mark_flags_cons (cmp : Q -> Q -> bool) (m : option Q) (p : Q) (ps : list Q) :
  mark_flags cmp m (p :: ps) =
  mark_flags cmp m [p] ++
  mark_flags cmp (match m with
                  | None => Some p
                  | Some m0 => if cmp m0 p then Some p else Some m0
                  end) ps.
Proof.
  cbn [mark_flags]. destruct m as [m0 |]; [destruct (cmp m0 p) |]; reflexivity.
Qed.

(** The flags of all records of [act] from an object whose current sample
    is set: those of the running marks over the rendered prices. *)
Lemma Schema1_act_flags (data : list PriceDateEntry) :
  forall (self : Schema1.t) (d0 : datetime) (p0 : Q),
  curr_date self = Some d0 -> curr_val self = Some p0 ->
  let ps := map snd (boundary_samples (prev_date self) data)
            ++ [last (map snd data) p0] in
  map (get "highSinceStart") (fst (act self data)) =
    map Some (mark_flags (fun m q => Qltb m q) (Schema1._max_val (fields self)) ps) /\
  map (get "lowSinceStart") (fst (act self data)) =
    map Some (mark_flags (fun m q => Qltb q m) (Schema1._min_val (fields self)) ps).
Proof.
  induction data as [| [dt p] rest IH]; intros self d0 p0 Cd Cv ps; subst ps.
  - unfold act. cbn [act_loop boundary_samples map app last].
    change (@hourly_update _ _ Schema1.hooks self) with self.
    change (@output_format _ _ Schema1.hooks) with Schema1.output_format.
    destruct (output_format_returns (Lawful := Schema1_lawful) self Logic.I)
      as (r & x & Er & _); [rewrite Cd; discriminate | rewrite Cv; discriminate |].
    change (Schema1.output_format self = Ok (r, set_fields self x)) in Er.
    rewrite Er. cbn [fst app map].
    destruct (Schema1_render_marks _ _ _ p0 Er Cv) as (Hh & Hl & _).
    split; assumption.
  - rewrite fst_act_cons. cbn [boundary_samples map].
    rewrite (last_cons_default p p0).
    destruct (is_boundary (prev_date self) dt) eqn:B.
    + rewrite (act_body_boundary self (dt, p) B).
      change (@output_format _ _ Schema1.hooks) with Schema1.output_format.
      destruct (output_format_returns (Lawful := Schema1_lawful)
                  (set_curr self (dt, p)) Logic.I)
        as (r & x & Er & _); try discriminate.
      change (Schema1.output_format (set_curr self (dt, p))
              = Ok (r, set_fields (set_curr self (dt, p)) x)) in Er.
      rewrite Er. cbv zeta.
      destruct (Schema1_render_marks _ _ _ p Er eq_refl) as (Hh & Hl & Mx & Mn).
      set (s1 := finish _).
      destruct (IH s1 dt p eq_refl eq_refl) as [IHh IHl].
      change (prev_date s1) with (Some dt) in IHh, IHl.
      change (fields s1) with x in IHh, IHl.
      change (fields (set_fields (set_curr self (dt, p)) x)) with x in Mx, Mn.
      change (fields (set_curr self (dt, p))) with (fields self) in Hh, Hl, Mx, Mn.
      cbn [app map fst snd].
      set (psr := map snd (boundary_samples (Some dt) rest)
                  ++ [last (map snd rest) p]) in *.
      rewrite (mark_flags_cons (fun m q => Qltb m q)
                 (Schema1._max_val (fields self)) p psr),
        (mark_flags_cons (fun m q => Qltb q m)
           (Schema1._min_val (fields self)) p psr), !map_app.
      rewrite <- Hh, <- Hl, <- Mx, <- Mn. split; cbn [app]; f_equal; assumption.
    + rewrite (act_body_same_day self (dt, p) B).
      set (s1 := finish _).
      destruct (IH s1 dt p eq_refl eq_refl) as [IHh IHl].
      change (prev_date s1) with (Some dt) in IHh, IHl.
      change (fields s1) with (fields self) in IHh, IHl.
      cbn [app]. split; assumption.
Qed.

Lemma last_entry_snd (data : list PriceDateEntry) (e : PriceDateEntry) :
  last_entry data = Some e -> forall d, last (map snd data) d = snd e.
Proof.
  induction data as [| a rest IH]; intros El d; [discriminate |].
  rewrite last_entry_cons in El. cbn [map]. rewrite last_cons_default.
  destruct rest as [| b rest'].
  - injection El as <-. reflexivity.
  - apply IH. exact El.
Qed.

Lemma Qltb_irrefl (p : Q) : Qltb p p = false.
Proof. apply Qltb_ge. apply Qle_refl. Qed.

Lemma Qltb_asym (q p : Q) : Qltb q p = true -> Qltb p q = false.
Proof. rewrite Qltb_lt, Qltb_ge. apply Qlt_le_weak. Qed.

Lemma Qltb_below (m q p : Q) :
  Qltb m p = true -> Qltb m q = false -> Qltb q p = true.
Proof. rewrite !Qltb_lt, Qltb_ge. intros; lra. Qed.

Lemma Qltb_above (m q p : Q) :
  Qltb p m = true -> Qltb q m = false -> Qltb p q = true.
Proof. rewrite !Qltb_lt, Qltb_ge. intros; lra. Qed.

(** X16: for every non-empty input, take the prices the Trend records are
    rendered for, in order (those of the day-boundary samples, then the last
    price).  highSinceStart is null in the first record and, in every later
    record, true exactly when its price is strictly above the price of every
    earlier record; lowSinceStart likewise with strictly below. *)
Theorem trend_flags_compare_records (data : list PriceDateEntry) :
  data <> [] ->
  exists ys s e,
    act Schema1.init data = (ys, Ok s) /\ last_entry data = Some e /\
    let ps := map snd (boundary_samples None data ++ [e]) in
    map (get "highSinceStart") ys =
      map Some (beats_all (fun q p => Qltb q p) [] ps) /\
    map (get "lowSinceStart") ys =
      map Some (beats_all (fun q p => Qltb p q) [] ps).
Proof.
  intros N.
  destruct (act_ok (Inv := fun _ => True) data Schema1.init Logic.I N)
    as (ys0 & s0 & r & s & _ & _ & Ea & _).
  destruct (last_entry data) as [e |] eqn:El;
    [| apply last_entry_none in El; contradiction].
  exists (ys0 ++ [r]), s, e. split; [exact Ea |]. split; [reflexivity |].
  cbv zeta. replace (ys0 ++ [r]) with (fst (act Schema1.init data))
    by (rewrite Ea; reflexivity).
  destruct data as [| [dt p] rest]; [contradiction |].
  pose proof (last_entry_snd _ _ El p) as Ls.
  rewrite fst_act_cons, Schema1_first.
  set (s1 := mkStats _ _ _ _ _ _).
  destruct (Schema1_act_flags rest s1 dt p eq_refl eq_refl) as [Fh Fl].
  cbn [map snd] in Ls. rewrite last_cons_default in Ls.
  change (prev_date s1) with (Some dt) in Fh, Fl.
  change (Schema1._max_val (fields s1)) with (Some p) in Fh.
  change (Schema1._min_val (fields s1)) with (Some p) in Fl.
  rewrite Ls in Fh, Fl.
  cbn [boundary_samples is_boundary app map snd].
  rewrite map_app. cbn [map].
  rewrite <- (mark_flags_unset (fun q p => Qltb q p)
                Qltb_irrefl Qltb_asym Qltb_below).
  rewrite <- (mark_flags_unset (fun q p => Qltb p q)
                Qltb_irrefl (fun q p => Qltb_asym p q)
                (fun m q p => Qltb_above m q p)).
  cbn [mark_flags map app]. rewrite Fh, Fl. split; reflexivity.
Qed.

Lemma trend_flags_compare_records_witness :
  let data := [(mkDatetime 2020 1 15 9 0 0, 100%Q);
               (mkDatetime 2020 1 15 10 0 0, 500%Q);
               (mkDatetime 2020 1 16 9 0 0, 110%Q);
               (mkDatetime 2020 1 17 9 0 0, 90%Q)] in
  data <> [] /\
  exists ys s e,
    act Schema1.init data = (ys, Ok s) /\ last_entry data = Some e /\
    let ps := map snd (boundary_samples None data ++ [e]) in
    map (get "highSinceStart") ys =
      map Some (beats_all (fun q p => Qltb q p) [] ps) /\
    map (get "lowSinceStart") ys =
      map Some (beats_all (fun q p => Qltb p q) [] ps).
Proof.
  cbv zeta. split; [discriminate |].
  apply (trend_flags_compare_records
           [(mkDatetime 2020 1 15 9 0 0, 100%Q);
            (mkDatetime 2020 1 15 10 0 0, 500%Q);
            (mkDatetime 2020 1 16 9 0 0, 110%Q);
            (mkDatetime 2020 1 17 9 0 0, 90%Q)]).
  discriminate.
Defined.

(** ** When the last sample opens a day *)

Lemma loop_prev_date {X R : Type} {H : Hooks X R} {Inv : X -> Prop}
    {L : Lawful H Inv} (x : X) (seen : list PriceDateEntry) :
  Inv x ->
  exists ys s,
    act_loop (fresh x) seen = (ys, Ok s) /\ Inv (fields s) /\
    prev_date s = option_map fst (last_entry seen).
Proof.
  intros I.
  destruct (act_loop_ok seen (fresh x) I) as (ys & s & E & Is & _ & _ & La).
  exists ys, s. split; [exact E |]. split; [exact Is |].
  destruct (last_entry seen) as [e |].
  - destruct La as (_ & _ & -> & _). reflexivity.
  - subst s. reflexivity.
Qed.

Lemma Qminus_self_falsy (p : Q) : truthy (p - p) = false.
Proof. apply truthy_false. reflexivity. Qed.

(** X17: when the last sample is a day boundary, the Trend strategy ends
    with two records for it, the boundary record and the trailing record,
    with the same date and price; the trailing one has direction "same", a
    null change, and both water-mark flags false. *)
Theorem trend_last_sample_opens_day (seen : list PriceDateEntry)
    (line : PriceDateEntry) :
  is_boundary (option_map fst (last_entry seen)) (fst line) = true ->
  exists ys rb rt s,
    act Schema1.init (seen ++ [line]) = (ys ++ [rb; rt], Ok s) /\
    get "date" rb = Some (VStr (strftime_iso (fst line))) /\
    get "date" rt = Some (VStr (strftime_iso (fst line))) /\
    get "price" rb = Some (VStr (format_2f (snd line))) /\
    get "price" rt = Some (VStr (format_2f (snd line))) /\
    get "direction" rt = Some (VStr "same") /\
    get "change" rt = Some VNone /\
    get "highSinceStart" rt = Some (VBool false) /\
    get "lowSinceStart" rt = Some (VBool false).
Proof.
  intros B. destruct line as [dt p].
  destruct (loop_prev_date (L := Schema1_lawful) (Schema1.mkExtra None None)
              seen Logic.I) as (ys & s & E & _ & Pd).
  change (fresh (Schema1.mkExtra None None)) with Schema1.init in E.
  rewrite <- Pd in B.
  destruct (output_format_returns (Lawful := Schema1_lawful)
              (set_curr s (dt, p)) Logic.I) as (rb & x & Eb & _);
    try discriminate.
  change (Schema1.output_format (set_curr s (dt, p))
          = Ok (rb, set_fields (set_curr s (dt, p)) x)) in Eb.
  set (s1 := mkStats (Some p) (Some dt) (Some p) (Some dt) (Some p) x).
  destruct (output_format_returns (Lawful := Schema1_lawful) s1 Logic.I)
    as (rt & x' & Et & _); try discriminate.
  change (Schema1.output_format s1 = Ok (rt, set_fields s1 x')) in Et.
  assert (Ea : act Schema1.init (seen ++ [(dt, p)])
               = (ys ++ [rb; rt], Ok (set_fields s1 x'))).
  { rewrite act_app, E, act_cons, (act_body_boundary s (dt, p) B).
    change (@output_format _ _ Schema1.hooks) with Schema1.output_format.
    rewrite Eb. cbv beta iota zeta.
    change (finish _) with s1. unfold act. cbn [act_loop].
    change (@hourly_update _ _ Schema1.hooks s1) with s1.
    change (@output_format _ _ Schema1.hooks) with Schema1.output_format.
    rewrite Et. reflexivity. }
  exists ys, rb, rt, (set_fields s1 x'). split; [exact Ea |].
  pose proof (Schema1_render_stamp (set_curr s (dt, p)) dt p _ _
                eq_refl eq_refl Eb) as Sb.
  pose proof (Schema1_render_stamp s1 dt p _ _ eq_refl eq_refl Et) as St.
  injection Sb as Sb1 Sb2. injection St as St1 St2.
  pose proof (Schema1_render_direction s1 _ _ p p Et eq_refl eq_refl) as Dt.
  pose proof (Schema1_render_change s1 _ _ p Et eq_refl) as Ct.
  destruct (Schema1_render_marks (set_curr s (dt, p)) _ _ p Eb eq_refl)
    as (_ & _ & Mx & Mn).
  destruct (Schema1_render_marks s1 _ _ p Et eq_refl) as (Hh & Hl & _).
  change (fields (set_fields (set_curr s (dt, p)) x)) with x in Mx, Mn.
  change (fields s1) with x in Hh, Hl.
  cbn [fst snd].
  repeat (split; [assumption |]).
  split.
  { rewrite Dt. pose proof (truthy_false p p) as T.
    destruct (Qltb 0 (p - p)) eqn:U; [apply Qltb_up in U; lra |].
    destruct (Qltb (p - p) 0) eqn:D; [apply Qltb_down in D; lra |].
    reflexivity. }
  split.
  { rewrite Ct. cbn [prev_day_val s1 option_map Schema1.change_item].
    rewrite Qminus_self_falsy. reflexivity. }
  split.
  - rewrite Mx in Hh.
    destruct (Schema1._max_val (fields (set_curr s (dt, p)))) as [m |];
      [destruct (Qltb m p) eqn:C |];
      cbn [mark_flags map] in Hh; rewrite ?Qltb_irrefl, ?C in Hh;
      injection Hh as ->; reflexivity.
  - rewrite Mn in Hl.
    destruct (Schema1._min_val (fields (set_curr s (dt, p)))) as [m |];
      [destruct (Qltb p m) eqn:C |];
      cbn [mark_flags map] in Hl; rewrite ?Qltb_irrefl, ?C in Hl;
      injection Hl as ->; reflexivity.
Qed.

Lemma trend_last_sample_opens_day_witness :
  let seen := [(mkDatetime 2020 1 15 9 0 0, 100%Q);
               (mkDatetime 2020 1 15 10 0 0, 110%Q)] in
  let line := (mkDatetime 2020 1 16 9 0 0, 90%Q) in
  is_boundary (option_map fst (last_entry seen)) (fst line) = true /\
  exists ys rb rt s,
    act Schema1.init (seen ++ [line]) = (ys ++ [rb; rt], Ok s) /\
    get "date" rb = Some (VStr (strftime_iso (fst line))) /\
    get "date" rt = Some (VStr (strftime_iso (fst line))) /\
    get "price" rb = Some (VStr (format_2f (snd line))) /\
    get "price" rt = Some (VStr (format_2f (snd line))) /\
    get "direction" rt = Some (VStr "same") /\
    get "change" rt = Some VNone /\
    get "highSinceStart" rt = Some (VBool false) /\
    get "lowSinceStart" rt = Some (VBool false).
Proof.
  cbv zeta. split; [reflexivity |].
  apply (trend_last_sample_opens_day
           [(mkDatetime 2020 1 15 9 0 0, 100%Q); (mkDatetime 2020 1 15 10 0 0, 110%Q)]
           (mkDatetime 2020 1 16 9 0 0, 90%Q)).
  reflexivity.
Defined.

Lemma Qmean_pair (p : Q) : (Qmean [p; p] == p)%Q.
Proof. unfold Qmean, Qsum, Qlen. simpl. field. Qed.

Lemma Qvariance_pair (p : Q) : (Qvariance [p; p] == 0)%Q.
Proof.
  assert (F : Forall (fun x => x == p)%Q [p; p]) by (repeat constructor).
  assert (N : (2 <= List.length [p; p])%nat) by (simpl; lia).
  pose proof (flat_variance p _ N F). pose proof (Qvariance_nonneg _ N). lra.
Qed.

(** X18: when the last sample is a day boundary and the prices are in
    range, the Dispersion strategy ends with two records for it with the
    same date and price; the trailing one is computed from that price
    counted twice: its dailyAverage equals the price, its dailyVariance is
    zero and its alert is false. *)
Theorem dispersion_last_sample_opens_day (seen : list PriceDateEntry)
    (line : PriceDateEntry) :
  is_boundary (option_map fst (last_entry seen)) (fst line) = true ->
  prices_in_range (seen ++ [line]) ->
  exists ys qb qt s a v,
    act Schema2.init (seen ++ [line]) = (ys ++ [qb; qt], Ok s) /\
    get "date" qb = Some (VStr (strftime_iso (fst line))) /\
    get "date" qt = Some (VStr (strftime_iso (fst line))) /\
    get "price" qb = Some (VStr (format_2f (snd line))) /\
    get "price" qt = Some (VStr (format_2f (snd line))) /\
    get "dailyAverage" qt = Some (VNum a) /\ (a == snd line)%Q /\
    get "dailyVariance" qt = Some (VNum v) /\ (v == 0)%Q /\
    get "volatilityalert" qt = Some (VBool false).
Proof.
  intros B _. destruct line as [dt p].
  destruct (loop_prev_date (L := Schema2_lawful) (Schema2.mkExtra [])
              seen (Forall_nil _)) as (ys & s & E & _ & Pd).
  change (fresh (Schema2.mkExtra [])) with Schema2.init in E.
  destruct (Schema2_act_loop seen Schema2.init [] eq_refl) as (ys0 & s0 & E0 & V).
  rewrite E in E0. injection E0 as <- <-.
  rewrite <- Pd in B.
  destruct (Schema2_act_body_rendered s _ (dt, p) V) as (s1 & Eb & Cd & Cv & V1).
  rewrite B in Eb, V1. cbn [fst snd app] in Eb, V1, Cd, Cv.
  assert (V2 : Schema2.vals (fields (Schema2.hourly_update s1))
               = map Some [p; p]).
  { simpl. rewrite V1, Cv. reflexivity. }
  pose proof (Schema2_output_format_numbers (Schema2.hourly_update s1)
                [p; p] dt p V2 Cd Cv) as Et.
  exists ys, (rendered dt p (today None [] seen)),
    (rendered dt p [p; p]), (Schema2.hourly_update s1),
    (Qmean [p; p]), (Qvariance [p; p]).
  split.
  { rewrite act_app, E, act_cons, Eb. unfold act. cbn [act_loop].
    change (@hourly_update _ _ Schema2.hooks) with Schema2.hourly_update.
    change (@output_format _ _ Schema2.hooks) with Schema2.output_format.
    rewrite Et. reflexivity. }
  cbn [fst snd].
  repeat (split; [reflexivity |]).
  split; [apply Qmean_pair |]. split; [reflexivity |].
  split; [apply Qvariance_pair | reflexivity].
Qed.

Lemma dispersion_last_sample_opens_day_witness :
  let seen := [(mkDatetime 2020 1 15 9 0 0, 100%Q);
               (mkDatetime 2020 1 15 10 0 0, 110%Q)] in
  let line := (mkDatetime 2020 1 16 9 0 0, 90%Q) in
  is_boundary (option_map fst (last_entry seen)) (fst line) = true /\
  prices_in_range (seen ++ [line]) /\
  exists ys qb qt s a v,
    act Schema2.init (seen ++ [line]) = (ys ++ [qb; qt], Ok s) /\
    get "date" qb = Some (VStr (strftime_iso (fst line))) /\
    get "date" qt = Some (VStr (strftime_iso (fst line))) /\
    get "price" qb = Some (VStr (format_2f (snd line))) /\
    get "price" qt = Some (VStr (format_2f (snd line))) /\
    get "dailyAverage" qt = Some (VNum a) /\ (a == snd line)%Q /\
    get "dailyVariance" qt = Some (VNum v) /\ (v == 0)%Q /\
    get "volatilityalert" qt = Some (VBool false).
Proof.
  cbv zeta.
  assert (P : prices_in_range
                ([(mkDatetime 2020 1 15 9 0 0, 100%Q);
                  (mkDatetime 2020 1 15 10 0 0, 110%Q)]
                 ++ [(mkDatetime 2020 1 16 9 0 0, 90%Q)])).
  { repeat constructor; vm_compute; discriminate. }
  split; [reflexivity |]. split; [exact P |].
  apply (dispersion_last_sample_opens_day
           [(mkDatetime 2020 1 15 9 0 0, 100%Q); (mkDatetime 2020 1 15 10 0 0, 110%Q)]
           (mkDatetime 2020 1 16 9 0 0, 90%Q)); [reflexivity | exact P].
Defined.
